(** * tablemd: table structure to Markdown, one file per table

    A shallow embedding of [tablemd.py] and the properties of its
    configuration loader, table enumerator, metadata collector and
    Markdown renderer.

    Python [str] values are lists of Unicode code points, dictionaries
    are [gmap]s, sets are [gset]s.  Exceptions, [print] and file writes
    are threaded through a small state-and-error monad. *)

From Stdlib Require Import ZArith NArith Ascii String Decimal.
From stdpp Require Import gmap list fin_maps.

Local Open Scope N_scope.

(** ** Python strings *)

(** A [str] is a sequence of code points. *)
Abbreviation pystr := (list N).

(** String literals are written in UTF-8 and decoded to code points. *)
Fixpoint utf8_decode (bs : list N) : pystr :=
  match bs with
  | [] => []
  | b0 :: r0 =>
    if b0 <? 128 then b0 :: utf8_decode r0
    else
      match r0 with
      | [] => []
      | b1 :: r1 =>
        if b0 <? 224 then ((b0 mod 32) * 64 + b1 mod 64) :: utf8_decode r1
        else
          match r1 with
          | [] => []
          | b2 :: r2 =>
            if b0 <? 240
            then ((b0 mod 16) * 4096 + (b1 mod 64) * 64 + b2 mod 64) :: utf8_decode r2
            else
              match r2 with
              | [] => []
              | b3 :: r3 =>
                ((b0 mod 8) * 262144 + (b1 mod 64) * 4096 + (b2 mod 64) * 64 + b3 mod 64)
                  :: utf8_decode r3
              end
          end
      end
  end.

Definition lit (s : string) : pystr :=
  utf8_decode (map N_of_ascii (list_ascii_of_string s)).

Definition ch_lf : N := 10.
Definition ch_hash : N := 35.
Definition ch_percent : N := 37.
Definition ch_minus : N := 45.
Definition ch_equals : N := 61.
Definition ch_backslash : N := 92.
Definition ch_underscore : N := 95.
Definition ch_pipe : N := 124.

(** Truth value of a string: [bool(s)]. *)
Definition truthy (s : pystr) : bool :=
  match s with [] => false | _ :: _ => true end.

(** [x or d] for an optional string [x]: [d] when [x] is [None] or empty. *)
Definition or_else (x : option pystr) (d : pystr) : pystr :=
  match x with
  | Some s => if truthy s then s else d
  | None => d
  end.

(** [x or e], [e] the empty string. *)
Definition or_empty (x : option pystr) : pystr := or_else x [].

(** [c in s] for a one-character string [c]. *)
Definition contains (c : N) (s : pystr) : bool := existsb (N.eqb c) s.

(** [s.startswith(c)] for a one-character string [c]. *)
Definition startswith (s : pystr) (c : N) : bool :=
  match s with
  | [] => false
  | x :: _ => x =? c
  end.

(** The code points [str.strip()] removes: those with [str.isspace()]. *)
Definition is_space (c : N) : bool :=
  ((9 <=? c) && (c <=? 13)) || ((28 <=? c) && (c <=? 32))
  || (c =? 133) || (c =? 160) || (c =? 5760)
  || ((8192 <=? c) && (c <=? 8202))
  || (c =? 8232) || (c =? 8233) || (c =? 8239) || (c =? 8287) || (c =? 12288).

Fixpoint lstrip (s : pystr) : pystr :=
  match s with
  | [] => []
  | c :: s' => if is_space c then lstrip s' else s
  end.

Definition rstrip (s : pystr) : pystr := reverse (lstrip (reverse s)).

Definition strip (s : pystr) : pystr := rstrip (lstrip s).

(** The line boundaries of [str.splitlines()]. *)
Definition is_linebreak (c : N) : bool :=
  ((10 <=? c) && (c <=? 13)) || ((28 <=? c) && (c <=? 30))
  || (c =? 133) || (c =? 8232) || (c =? 8233).

(** [splitlines_from cur s]: [cur] is the current line, reversed. *)
Fixpoint splitlines_from (cur : pystr) (s : pystr) : list pystr :=
  match s with
  | [] => if truthy cur then [reverse cur] else []
  | c :: s' =>
    if is_linebreak c then
      reverse cur ::
        match s' with
        | c' :: s'' =>
          if (c =? 13) && (c' =? 10) then splitlines_from [] s''
          else splitlines_from [] s'
        | [] => splitlines_from [] s'
        end
    else splitlines_from (c :: cur) s'
  end.

Definition splitlines (s : pystr) : list pystr := splitlines_from [] s.

(** [s.split(sep, 1)] for a one-character separator: at most one split,
    at the first occurrence. *)
Fixpoint split1_from (sep : N) (acc : pystr) (s : pystr) : list pystr :=
  match s with
  | [] => [reverse acc]
  | c :: s' => if c =? sep then [reverse acc; s'] else split1_from sep (c :: acc) s'
  end.

Definition split1 (sep : N) (s : pystr) : list pystr := split1_from sep [] s.

(** [s.replace(old, new)] for a one-character [old]. *)
Fixpoint replace (old : N) (new : pystr) (s : pystr) : pystr :=
  match s with
  | [] => []
  | c :: s' => if c =? old then new ++ replace old new s' else c :: replace old new s'
  end.

(** [sep.join(parts)]. *)
Fixpoint join (sep : pystr) (parts : list pystr) : pystr :=
  match parts with
  | [] => []
  | [p] => p
  | p :: rest => p ++ sep ++ join sep rest
  end.

(** [str(n)] for an integer: decimal digits, with a sign when negative. *)
Fixpoint digits (u : Decimal.uint) : pystr :=
  match u with
  | Nil => []
  | D0 u => 48 :: digits u
  | D1 u => 49 :: digits u
  | D2 u => 50 :: digits u
  | D3 u => 51 :: digits u
  | D4 u => 52 :: digits u
  | D5 u => 53 :: digits u
  | D6 u => 54 :: digits u
  | D7 u => 55 :: digits u
  | D8 u => 56 :: digits u
  | D9 u => 57 :: digits u
  end.

Definition str_int (z : Z) : pystr :=
  match Z.to_int z with
  | Decimal.Pos u => digits u
  | Decimal.Neg u => ch_minus :: digits u
  end.


(** ** Exceptions, effects *)

Inductive exn :=
| ValueError
| AttributeError
| RuntimeError (msg : pystr)
| OSError
| DriverError
| SystemExit (code : Z).

Inductive result (A : Type) :=
| Ok (a : A)
| Raise (e : exn).
Arguments Ok {A} a.
Arguments Raise {A} e.

Global Instance result_ret : MRet result := @Ok.
Global Instance result_bind : MBind result := λ A B f r,
  match r with
  | Ok a => f a
  | Raise e => Raise e
  end.

(** A path is the list of its segments. *)
Abbreviation Path := (list pystr).

(** [p / name] *)
Definition path_join (p : Path) (name : pystr) : Path := p ++ [name].

(** [p.with_name(name)] *)
Definition with_name (p : Path) (name : pystr) : Path := removelast p ++ [name].

(** What a run leaves behind: the lines printed, the directories
    created and the files written, each in order. *)
Record World := {
  stdout : list pystr;
  made_dirs : list Path;
  written : list (Path * pystr)
}.

Definition world0 : World := {| stdout := []; made_dirs := []; written := [] |}.

Definition M (A : Type) : Type := World → result A * World.

Global Instance M_ret : MRet M := λ A a w, (Ok a, w).
Global Instance M_bind : MBind M := λ A B f m w,
  match m w with
  | (Ok a, w') => f a w'
  | (Raise e, w') => (Raise e, w')
  end.

Definition raise {A} (e : exn) : M A := λ w, (Raise e, w).

Definition lift {A} (r : result A) : M A := λ w, (r, w).

Definition print (s : pystr) : M unit := λ w,
  (Ok (), {| stdout := stdout w ++ [s]; made_dirs := made_dirs w; written := written w |}).

(** [sys.exit(code)] raises [SystemExit]. *)
Definition sys_exit {A} (code : Z) : M A := raise (SystemExit code).

Definition ensure_dir (p : Path) : M unit := λ w,
  (Ok (), {| stdout := stdout w; made_dirs := made_dirs w ++ [p]; written := written w |}).

Definition write_text (p : Path) (text : pystr) : M unit := λ w,
  (Ok (), {| stdout := stdout w; made_dirs := made_dirs w; written := written w ++ [(p, text)] |}).

(** [for x in xs: body x] *)
Fixpoint for_each {A} (xs : list A) (body : A → M unit) : M unit :=
  match xs with
  | [] => mret ()
  | x :: xs' => body x ≫= λ _, for_each xs' body
  end.

(** The exit status of the process: an uncaught [SystemExit] gives its
    code, any other uncaught exception gives 1. *)
Definition exit_status {A} (r : result A) : Z :=
  match r with
  | Ok _ => 0
  | Raise (SystemExit code) => code
  | Raise _ => 1
  end.

(** ** Utility functions *)

(** [conf.get(key)] and [conf.get(key, default)]. *)
Definition get (conf : gmap pystr pystr) (key : pystr) : option pystr := conf !! key.

Definition get_default (conf : gmap pystr pystr) (key : pystr) (dflt : pystr) : pystr :=
  default dflt (conf !! key).

(** [load_properties(path)].  The argument is what
    [path.read_text(encoding="utf-8")] gives: the decoded text, or the
    exception it raises.  Unpacking [k, v = line.split("=", 1)] raises
    [ValueError] unless the split has exactly two parts. *)
Definition load_line (conf : gmap pystr pystr) (line : pystr) : result (gmap pystr pystr) :=
  let line := strip line in
  if negb (truthy line) || startswith line ch_hash then Ok conf
  else if contains ch_equals line then
    match split1 ch_equals line with
    | [k; v] => Ok (<[strip k := strip v]> conf)
    | _ => Raise ValueError
    end
  else Ok conf.

Fixpoint load_lines (conf : gmap pystr pystr) (lines : list pystr) : result (gmap pystr pystr) :=
  match lines with
  | [] => Ok conf
  | line :: rest =>
    match load_line conf line with
    | Ok conf' => load_lines conf' rest
    | Raise e => Raise e
    end
  end.

Definition load_properties (read_text : result pystr) : result (gmap pystr pystr) :=
  match read_text with
  | Ok text => load_lines ∅ (splitlines text)
  | Raise e => Raise e
  end.

(** [md_escape(s)]: every [|] of [s] (of the empty string when [s] is
    [None]) is replaced by a backslash and [|]. *)
Definition md_escape (s : option pystr) : pystr :=
  replace ch_pipe [ch_backslash; ch_pipe] (or_empty s).

(** [is_like_pattern(pat)] *)
Definition is_like_pattern (pat : pystr) : bool :=
  contains ch_percent pat || contains ch_underscore pat.

(** [f"{x}"] for an optional string: [None] prints as [None]. *)
Definition fmt_opt (x : option pystr) : pystr :=
  match x with
  | Some s => s
  | None => lit "None"
  end.

(** What the program takes from the Python runtime and does not
    define itself. *)
Record Runtime := {
  py_lower : pystr → pystr;          (* str.lower() *)
  py_upper : pystr → pystr;          (* str.upper() *)
  py_int : pystr → option Z;         (* int(s), None for ValueError *)
  path_str : Path → pystr            (* str(path) *)
}.

(** What a catalog query takes from the database engine. *)
Record SqlEngine := {
  UPPER : pystr → pystr;
  LIKE : pystr → pystr → bool;
  EQ : pystr → pystr → bool;
  ORDER_BY : list pystr → list pystr
}.

(** ** Oracle *)

(** A row of the column query, as the dictionary built from the cursor
    description (keys in lower case). *)
Module OraCol.
Record t := {
  column_name : pystr;
  data_type : pystr;
  data_length : option Z;
  data_precision : option Z;
  data_scale : option Z;
  nullable : pystr;
  data_default : option pystr;
  column_comment : option pystr
}.
End OraCol.

(** An open connection: the engine and what the catalog views hold.
    [all_tables] has rows (owner, table_name); the three metadata queries
    are given by their result rows for the bound [:owner] and [:tab]. *)
Record OracleConn := {
  ora_engine : SqlEngine;
  all_tables : list (pystr * pystr);
  ora_cols_sql : pystr → pystr → list OraCol.t;
  ora_pk_sql : pystr → pystr → list pystr;
  ora_fk_sql : pystr → pystr → list (pystr * pystr * pystr)
}.

Record OraDsn := {
  dsn_host : option pystr;
  dsn_port : Z;
  dsn_service_name : option pystr;
  dsn_sid : option pystr
}.

(** The client library, when it could be imported. *)
Record OracleDriver := {
  cx_connect : option pystr → option pystr → OraDsn → result OracleConn
}.

Definition oracle_connect (rt : Runtime) (cx_Oracle : option OracleDriver)
    (conf : gmap pystr pystr) : result OracleConn :=
  let host := get conf (lit "ORA_HOST") in
  let port := get_default conf (lit "ORA_PORT") (lit "1521") in
  let user := get conf (lit "ORA_USER") in
  let pwd := get conf (lit "ORA_PWD") in
  let sid := strip (get_default conf (lit "ORA_SID") []) in
  let service := strip (get_default conf (lit "ORA_SERVICE") []) in
  match cx_Oracle with
  | None =>
    Raise (RuntimeError (lit "缺少 cx_Oracle，請先安裝：py -3 -m pip install cx_Oracle"))
  | Some drv =>
    match py_int rt port with
    | None => Raise ValueError
    | Some port_n =>
      let dsn :=
        if truthy service
        then {| dsn_host := host; dsn_port := port_n;
                dsn_service_name := Some service; dsn_sid := None |}
        else {| dsn_host := host; dsn_port := port_n;
                dsn_service_name := None; dsn_sid := Some sid |} in
      cx_connect drv user pwd dsn
    end
  end.

(** The [WHERE] clauses of the two enumeration queries. *)
Definition oracle_where_like (E : SqlEngine) (owner pat : pystr) (r : pystr * pystr) : bool :=
  EQ E r.1 owner && LIKE E (UPPER E r.2) (UPPER E pat).

Definition oracle_where_eq (E : SqlEngine) (owner pat : pystr) (r : pystr * pystr) : bool :=
  EQ E r.1 owner && EQ E (UPPER E r.2) (UPPER E pat).

(** [SELECT table_name FROM all_tables WHERE ... ORDER BY table_name] *)
Definition oracle_select_tables (conn : OracleConn) (where_ : pystr * pystr → bool) : list pystr :=
  ORDER_BY (ora_engine conn) (map snd (List.filter where_ (all_tables conn))).

(** [schema.upper()] raises [AttributeError] when [schema] is [None]. *)
Definition upper_opt (rt : Runtime) (x : option pystr) : result pystr :=
  match x with
  | Some s => Ok (py_upper rt s)
  | None => Raise AttributeError
  end.

Definition oracle_fetch_tables (rt : Runtime) (conn : OracleConn)
    (schema : option pystr) (table_pat : pystr) : result (list pystr) :=
  schema_up ← upper_opt rt schema;
  if is_like_pattern table_pat
  then Ok (oracle_select_tables conn (oracle_where_like (ora_engine conn) schema_up table_pat))
  else Ok (oracle_select_tables conn (oracle_where_eq (ora_engine conn) schema_up table_pat)).

(** [f"{rtbl}.{rcol}"] *)
Definition fk_target (rtbl rcol : pystr) : pystr := rtbl ++ lit "." ++ rcol.

(** [for col, rtbl, rcol in cur.fetchall(): fk_map[col] = f"{rtbl}.{rcol}"],
    the same loop in both collectors. *)
Fixpoint fk_loop (fk_map : gmap pystr pystr) (rows : list (pystr * pystr * pystr))
    : gmap pystr pystr :=
  match rows with
  | [] => fk_map
  | (col, rtbl, rcol) :: rest => fk_loop (<[col := fk_target rtbl rcol]> fk_map) rest
  end.

Definition oracle_collect_meta (rt : Runtime) (conn : OracleConn)
    (schema : option pystr) (table : pystr)
    : result (list OraCol.t * gset pystr * gmap pystr pystr) :=
  schema_up ← upper_opt rt schema;
  let table_up := py_upper rt table in
  let cols := ora_cols_sql conn schema_up table_up in
  let pk_cols : gset pystr := list_to_set (ora_pk_sql conn schema_up table_up) in
  let fk_map := fk_loop ∅ (ora_fk_sql conn schema_up table_up) in
  Ok (cols, pk_cols, fk_map).

(** The three fixed lines both renderers start with. *)
Definition heading (table : pystr) : pystr := lit "## 表格名稱:" ++ table ++ [ch_lf].

Definition header_row : pystr :=
  lit "| 欄位 | 資料型別 | 長度/精度 | Nullable | 預設值 | 主鍵 | 外鍵 | 說明 |".

Definition separator_row : pystr := lit "|---|---|---:|:---:|:---:|:---:|:---:|---|".

(** The f-string of a data row. *)
Definition format_row (name dtype lens nullable default_ is_pk fk_cell comment : pystr) : pystr :=
  lit "| " ++ name ++ lit " | " ++ dtype ++ lit " | " ++ lens ++ lit " | " ++ nullable
    ++ lit " | " ++ default_ ++ lit " | " ++ is_pk ++ lit " | " ++ fk_cell ++ lit " | "
    ++ comment ++ lit " |".

(** [f"FK → `{fk_to}`" if fk_to else e], [e] the empty string. *)
Definition fk_cell_of (fk_to : pystr) : pystr :=
  if truthy fk_to then lit "FK → `" ++ fk_to ++ lit "`" else [].

Definition oracle_lens (c : OraCol.t) : pystr :=
  match OraCol.data_precision c with
  | Some p =>
    match OraCol.data_scale c with
    | Some s => str_int p ++ lit "," ++ str_int s
    | None => str_int p
    end
  | None =>
    match OraCol.data_length c with
    | Some l => str_int l
    | None => []
    end
  end.

Definition oracle_nullable (c : OraCol.t) : pystr :=
  if bool_decide (OraCol.nullable c = lit "Y") then lit "Y" else lit "N".

Definition oracle_default (c : OraCol.t) : pystr :=
  md_escape (Some (strip (or_empty (OraCol.data_default c)))).

Definition oracle_is_pk (c : OraCol.t) (pk_cols : gset pystr) : pystr :=
  if bool_decide (OraCol.column_name c ∈ pk_cols) then lit "Y" else [].

Definition oracle_fk_to (c : OraCol.t) (fk_map : gmap pystr pystr) : pystr :=
  get_default fk_map (OraCol.column_name c) [].

Definition oracle_fk_cell (c : OraCol.t) (fk_map : gmap pystr pystr) : pystr :=
  fk_cell_of (oracle_fk_to c fk_map).

Definition oracle_comment (c : OraCol.t) : pystr :=
  md_escape (Some (or_empty (OraCol.column_comment c))).

Definition oracle_row (c : OraCol.t) (pk_cols : gset pystr) (fk_map : gmap pystr pystr) : pystr :=
  format_row (OraCol.column_name c) (OraCol.data_type c) (oracle_lens c) (oracle_nullable c)
    (oracle_default c) (oracle_is_pk c pk_cols) (oracle_fk_cell c fk_map) (oracle_comment c).

(** The list [lines] when the loop over [cols] ends. *)
Definition oracle_lines (table : pystr) (cols : list OraCol.t)
    (pk_cols : gset pystr) (fk_map : gmap pystr pystr) : list pystr :=
  fold_left (λ lines c, lines ++ [oracle_row c pk_cols fk_map]) cols
    [heading table; header_row; separator_row].

(** The text written to the file. *)
Definition oracle_document (table : pystr) (cols : list OraCol.t)
    (pk_cols : gset pystr) (fk_map : gmap pystr pystr) : pystr :=
  join [ch_lf] (oracle_lines table cols pk_cols fk_map).

Definition table_file (out_dir : Path) (table : pystr) : Path :=
  path_join out_dir (lit "TABLE_" ++ table ++ lit ".md").

Definition oracle_write_md (out_dir : Path) (table : pystr) (cols : list OraCol.t)
    (pk_cols : gset pystr) (fk_map : gmap pystr pystr) (schema_id : option pystr) : M unit :=
  ensure_dir out_dir ≫= λ _,
  write_text (table_file out_dir table) (oracle_document table cols pk_cols fk_map).

(** ** SQL Server *)

(** A row of the column query, as the dictionary built from the cursor
    description (keys are the aliases of the query). *)
Module MsCol.
Record t := {
  column_name : pystr;
  data_type : pystr;
  max_length : option Z;
  precision : option Z;
  scale : option Z;
  is_nullable : bool;
  data_default : option pystr;
  column_comment : option pystr
}.
End MsCol.

(** An open connection.  [sys_tables] has rows (name, is_ms_shipped); the
    three metadata queries are given by their result rows for the bound
    table name. *)
Record MssqlConn := {
  ms_engine : SqlEngine;
  sys_tables : list (pystr * bool);
  ms_cols_sql : pystr → list MsCol.t;
  ms_pk_sql : pystr → list pystr;
  ms_fk_sql : pystr → list (pystr * pystr * pystr)
}.

Record OdbcDriver := {
  odbc_connect : pystr → result MssqlConn
}.

Definition mssql_connect (rt : Runtime) (pyodbc : option OdbcDriver)
    (conf : gmap pystr pystr) : result MssqlConn :=
  match pyodbc with
  | None => Raise (RuntimeError (lit "pyodbc not installed. Use: poetry add pyodbc"))
  | Some drv =>
    let driver := get_default conf (lit "MSSQL_DRIVER") (lit "ODBC Driver 18 for SQL Server") in
    let server := get conf (lit "MSSQL_SERVER") in
    let port := get_default conf (lit "MSSQL_PORT") (lit "1433") in
    let db := get conf (lit "MSSQL_DBNAME") in
    let user := get conf (lit "MSSQL_USER") in
    let pwd := get conf (lit "MSSQL_PWD") in
    let encrypt := py_lower rt (strip (get_default conf (lit "MSSQL_ENCRYPT") (lit "yes"))) in
    let trust :=
      py_lower rt (strip (get_default conf (lit "MSSQL_TRUST_SERVER_CERTIFICATE") (lit "yes"))) in
    let trusted_conn :=
      bool_decide
        (py_lower rt (strip (get_default conf (lit "MSSQL_TRUSTED_CONNECTION") (lit "no")))
           ∈ [lit "1"; lit "y"; lit "yes"; lit "true"]) in
    let parts :=
      [ lit "DRIVER={" ++ driver ++ lit "}";
        lit "SERVER=" ++ fmt_opt server ++ lit "," ++ port;
        lit "DATABASE=" ++ fmt_opt db;
        lit "Encrypt=" ++ encrypt;
        lit "TrustServerCertificate=" ++ trust ] in
    let parts :=
      if trusted_conn then parts ++ [lit "Trusted_Connection=Yes"]
      else (parts ++ [lit "UID=" ++ fmt_opt user]) ++ [lit "PWD=" ++ fmt_opt pwd] in
    let dsn := join (lit ";") parts in
    odbc_connect drv dsn
  end.

(** The [WHERE] clause of the enumeration query, with its four
    parameters in order. *)
Definition mssql_where (E : SqlEngine) (p1 : Z) (p2 : pystr) (p3 : Z) (p4 : pystr)
    (t : pystr * bool) : bool :=
  negb t.2
  && (((p1 =? 1)%Z && LIKE E (UPPER E t.1) (UPPER E p2))
      || ((p3 =? 0)%Z && EQ E (UPPER E t.1) (UPPER E p4))).

Definition mssql_fetch_tables (conn : MssqlConn) (dbname : pystr) (table_pat : pystr)
    : list pystr :=
  let like := if is_like_pattern table_pat then 1%Z else 0%Z in
  ORDER_BY (ms_engine conn)
    (map fst (List.filter (mssql_where (ms_engine conn) like table_pat like table_pat)
                (sys_tables conn))).

Definition mssql_collect_meta (conn : MssqlConn) (table : pystr)
    : list MsCol.t * gset pystr * gmap pystr pystr :=
  let cols := ms_cols_sql conn table in
  let pk_cols : gset pystr := list_to_set (ms_pk_sql conn table) in
  let fk_map := fk_loop ∅ (ms_fk_sql conn table) in
  (cols, pk_cols, fk_map).

(** Truth value of an optional number: [None] and 0 are false. *)
Definition truthy_num (x : option Z) : bool :=
  match x with
  | Some n => negb (n =? 0)%Z
  | None => false
  end.

(** [if prec and scale is not None and int(prec) != 0: ... elif maxlen
    is not None: ...]; the first two tests give the numbers [p] and [s]
    the third test and the f-string use. *)
Definition mssql_lens (c : MsCol.t) : pystr :=
  let prec := MsCol.precision c in
  let scale := MsCol.scale c in
  let maxlen := MsCol.max_length c in
  let elif_maxlen := match maxlen with Some l => str_int l | None => [] end in
  if truthy_num prec then
    match prec, scale with
    | Some p, Some s =>
      if negb (p =? 0)%Z then str_int p ++ lit "," ++ str_int s else elif_maxlen
    | _, _ => elif_maxlen
    end
  else elif_maxlen.

Definition mssql_nullable (c : MsCol.t) : pystr :=
  if MsCol.is_nullable c then lit "Y" else lit "N".

Definition mssql_default (c : MsCol.t) : pystr :=
  md_escape (Some (strip (or_empty (MsCol.data_default c)))).

Definition mssql_is_pk (c : MsCol.t) (pk_cols : gset pystr) : pystr :=
  if bool_decide (MsCol.column_name c ∈ pk_cols) then lit "Y" else [].

Definition mssql_fk_to (c : MsCol.t) (fk_map : gmap pystr pystr) : pystr :=
  get_default fk_map (MsCol.column_name c) [].

Definition mssql_fk_cell (c : MsCol.t) (fk_map : gmap pystr pystr) : pystr :=
  fk_cell_of (mssql_fk_to c fk_map).

Definition mssql_comment (c : MsCol.t) : pystr :=
  md_escape (Some (or_empty (MsCol.column_comment c))).

Definition mssql_row (c : MsCol.t) (pk_cols : gset pystr) (fk_map : gmap pystr pystr) : pystr :=
  format_row (MsCol.column_name c) (MsCol.data_type c) (mssql_lens c) (mssql_nullable c)
    (mssql_default c) (mssql_is_pk c pk_cols) (mssql_fk_cell c fk_map) (mssql_comment c).

Definition mssql_lines (table : pystr) (cols : list MsCol.t)
    (pk_cols : gset pystr) (fk_map : gmap pystr pystr) : list pystr :=
  fold_left (λ lines c, lines ++ [mssql_row c pk_cols fk_map]) cols
    [heading table; header_row; separator_row].

Definition mssql_document (table : pystr) (cols : list MsCol.t)
    (pk_cols : gset pystr) (fk_map : gmap pystr pystr) : pystr :=
  join [ch_lf] (mssql_lines table cols pk_cols fk_map).

Definition mssql_write_md (out_dir : Path) (table : pystr) (cols : list MsCol.t)
    (pk_cols : gset pystr) (fk_map : gmap pystr pystr) (db_id : pystr) : M unit :=
  ensure_dir out_dir ≫= λ _,
  write_text (table_file out_dir table) (mssql_document table cols pk_cols fk_map).

(** ** Main flow *)

(** What a run is started with. *)
Record Host := {
  argv : list pystr;
  script_file : Path;
  (* the files beside the script: [None] when the path does not exist,
     else what [read_text] gives *)
  files : Path → option (result pystr);
  cx_Oracle : option OracleDriver;
  pyodbc : option OdbcDriver
}.

Definition usage_message : pystr := lit "用法：tablemd.bat <TABLE_NAME 或 LIKE 樣式（含%%/_）>".

Definition no_config_message (rt : Runtime) (prop_path : Path) : pystr :=
  lit "找不到設定檔：" ++ path_str rt prop_path.

Definition bad_db_type_message : pystr := lit "DB_TYPE 僅支援：oracle 或 sqlserver".

Definition oracle_no_tables_message (schema : option pystr) (table_pat : pystr) : pystr :=
  lit "[Oracle] 無符合的表（owner=" ++ fmt_opt schema ++ lit ", pattern=" ++ table_pat ++ lit "）".

Definition mssql_no_tables_message (db_id : pystr) (table_pat : pystr) : pystr :=
  lit "[SQL Server] 無符合的表（db=" ++ db_id ++ lit ", pattern=" ++ table_pat ++ lit "）".

Definition main_oracle (rt : Runtime) (h : Host) (conf : gmap pystr pystr)
    (output_base : Path) (table_pat : pystr) : M unit :=
  let user_id := get conf (lit "ORA_USER") in
  let schema :=
    match conf !! lit "ORA_SCHEMA" with
    | Some s => Some s
    | None => user_id
    end in
  let out_dir :=
    path_join output_base (or_else user_id (lit "ORACLE")) in
  conn ← lift (oracle_connect rt (cx_Oracle h) conf);
  tables ← lift (oracle_fetch_tables rt conn schema table_pat);
  match tables with
  | [] => print (oracle_no_tables_message schema table_pat)
  | _ :: _ =>
    for_each tables (λ t,
      meta ← lift (oracle_collect_meta rt conn schema t);
      let '(cols, pk_cols, fk_map) := meta in
      oracle_write_md out_dir t cols pk_cols fk_map user_id ≫= λ _,
      print (lit "[Oracle] 已產出：" ++ path_str rt (table_file out_dir t)))
  end.

(** [conn.close()] in the [finally] block leaves no trace in [World]. *)
Definition main_mssql (rt : Runtime) (h : Host) (conf : gmap pystr pystr)
    (output_base : Path) (table_pat : pystr) : M unit :=
  let db_id := get_default conf (lit "MSSQL_DBNAME") (lit "MSSQL") in
  let out_dir := path_join output_base db_id in
  conn ← lift (mssql_connect rt (pyodbc h) conf);
  let tables := mssql_fetch_tables conn db_id table_pat in
  match tables with
  | [] => print (mssql_no_tables_message db_id table_pat)
  | _ :: _ =>
    for_each tables (λ t,
      let '(cols, pk_cols, fk_map) := mssql_collect_meta conn t in
      mssql_write_md out_dir t cols pk_cols fk_map db_id ≫= λ _,
      print (lit "[SQL Server] 已產出：" ++ path_str rt (table_file out_dir t)))
  end.

Definition main (rt : Runtime) (h : Host) : M unit :=
  if (length (argv h) <? 2)%nat then
    print usage_message ≫= λ _, sys_exit 1
  else
    let table_pat := nth 1 (argv h) [] in
    let prop_path := with_name (script_file h) (lit "tablemd.properties") in
    match files h prop_path with
    | None => print (no_config_message rt prop_path) ≫= λ _, sys_exit 2
    | Some read_text =>
      conf ← lift (load_properties read_text);
      let db_type := py_lower rt (get_default conf (lit "DB_TYPE") []) in
      let output_base : Path := [get_default conf (lit "OUTPUT_BASE") (lit "output")] in
      if bool_decide (db_type = lit "oracle") then main_oracle rt h conf output_base table_pat
      else if bool_decide (db_type = lit "sqlserver") then main_mssql rt h conf output_base table_pat
      else print bad_db_type_message ≫= λ _, sys_exit 3
    end.

(** Running the program from an empty trace: the exit status of the
    process and what it left behind. *)
Definition run (rt : Runtime) (h : Host) : Z * World :=
  let '(r, w) := main rt h world0 in (exit_status r, w).

(** ** Vocabulary of the properties *)

(** A Markdown table row is cut into cells at every [|] that is not in
    the escaped form, that is, not directly preceded by a backslash.
    [column_pipes s] counts these; [escaped] tells whether the code
    point before [s] is a backslash. *)
Fixpoint column_pipes_from (escaped : bool) (s : pystr) : nat :=
  match s with
  | [] => 0
  | c :: s' =>
    let rest := column_pipes_from (c =? ch_backslash) s' in
    if (c =? ch_pipe) && negb escaped then S rest else rest
  end.

Definition column_pipes (s : pystr) : nat := column_pipes_from false s.

(** Reading an escaped cell back: a backslash directly before a [|] is
    dropped. *)
Fixpoint unescape_pipes (s : pystr) : pystr :=
  match s with
  | [] => []
  | c :: s' =>
    match s' with
    | c' :: s'' =>
      if (c =? ch_backslash) && (c' =? ch_pipe) then ch_pipe :: unescape_pipes s''
      else c :: unescape_pipes s'
    | [] => [c]
    end
  end.

(** The lines of a text, cut at every line feed. *)
Fixpoint text_lines_from (cur : pystr) (s : pystr) : list pystr :=
  match s with
  | [] => [reverse cur]
  | c :: s' =>
    if c =? ch_lf then reverse cur :: text_lines_from [] s'
    else text_lines_from (c :: cur) s'
  end.

Definition text_lines (s : pystr) : list pystr := text_lines_from [] s.

Definition count_lf (s : pystr) : nat := length (List.filter (N.eqb ch_lf) s).

(** The value a sequence of assignments [d[k] = v] leaves at key [k]:
    that of the last assignment to [k]. *)
Definition last_assigned {V} (k : pystr) (kvs : list (pystr * V)) : option V :=
  last (omap (λ kv : pystr * V, if decide (kv.1 = k) then Some kv.2 else None) kvs).

(** The entry a configuration line stands for: none for a line that is
    empty after trimming or begins with [#]; for any other line with an
    [=], the trimmed text before the first [=] and the trimmed text
    after it; none for a line without [=]. *)
Definition first_index (c : N) (s : pystr) : option nat :=
  fst <$> list_find (λ x, x = c) s.

Definition line_entry (line : pystr) : option (pystr * pystr) :=
  let t := strip line in
  if decide (t = [] ∨ head t = Some ch_hash) then None
  else
    match first_index ch_equals t with
    | Some i => Some (strip (take i t), strip (drop (S i) t))
    | None => None
    end.

(** The assignments a foreign-key result set stands for. *)
Definition fk_assignments (rows : list (pystr * pystr * pystr)) : list (pystr * pystr) :=
  map (λ r : pystr * pystr * pystr, (r.1.1, fk_target r.1.2 r.2)) rows.

(** The Length/Precision cell as the specification words it, a scale
    of 0 being the trivial one. *)
Definition claimed_lens (precision scale max_length : option Z) : pystr :=
  match precision with
  | Some p =>
    match scale with
    | Some s => if (s =? 0)%Z then str_int p else str_int p ++ lit "," ++ str_int s
    | None => str_int p
    end
  | None =>
    match max_length with
    | Some l => str_int l
    | None => []
    end
  end.

(** The same column with another default expression. *)
Definition ora_with_default (d : option pystr) (c : OraCol.t) : OraCol.t :=
  {| OraCol.column_name := OraCol.column_name c;
     OraCol.data_type := OraCol.data_type c;
     OraCol.data_length := OraCol.data_length c;
     OraCol.data_precision := OraCol.data_precision c;
     OraCol.data_scale := OraCol.data_scale c;
     OraCol.nullable := OraCol.nullable c;
     OraCol.data_default := d;
     OraCol.column_comment := OraCol.column_comment c |}.

Definition ms_with_default (d : option pystr) (c : MsCol.t) : MsCol.t :=
  {| MsCol.column_name := MsCol.column_name c;
     MsCol.data_type := MsCol.data_type c;
     MsCol.max_length := MsCol.max_length c;
     MsCol.precision := MsCol.precision c;
     MsCol.scale := MsCol.scale c;
     MsCol.is_nullable := MsCol.is_nullable c;
     MsCol.data_default := d;
     MsCol.column_comment := MsCol.column_comment c |}.

(** ** A small runtime and hosts to run the program on *)

Definition ascii_lower (s : pystr) : pystr :=
  map (λ c, if (65 <=? c) && (c <=? 90) then c + 32 else c) s.

Definition ascii_upper (s : pystr) : pystr :=
  map (λ c, if (97 <=? c) && (c <=? 122) then c - 32 else c) s.

Definition ascii_int (s : pystr) : option Z :=
  if truthy s && forallb (λ c, (48 <=? c) && (c <=? 57)) s
  then Some (fold_left (λ a c, a * 10 + Z.of_N (c - 48))%Z s 0%Z)
  else None.

Definition ascii_runtime : Runtime :=
  {| py_lower := ascii_lower;
     py_upper := ascii_upper;
     py_int := ascii_int;
     path_str := join (lit "/") |}.

(** An engine whose [LIKE] knows the pattern [%] only. *)
Definition plain_engine : SqlEngine :=
  {| UPPER := ascii_upper;
     LIKE := λ name pat, bool_decide (pat = lit "%") || bool_decide (name = pat);
     EQ := λ a b, bool_decide (a = b);
     ORDER_BY := λ names, names |}.

Definition empty_oracle : OracleConn :=
  {| ora_engine := plain_engine;
     all_tables := [];
     ora_cols_sql := λ _ _, [];
     ora_pk_sql := λ _ _, [];
     ora_fk_sql := λ _ _, [] |}.

Definition empty_mssql : MssqlConn :=
  {| ms_engine := plain_engine;
     sys_tables := [];
     ms_cols_sql := λ _, [];
     ms_pk_sql := λ _, [];
     ms_fk_sql := λ _, [] |}.

(** A host whose configuration file holds [config] and whose drivers
    connect to the given databases. *)
Definition host_on (args : list pystr) (config : option pystr)
    (oconn : OracleConn) (mconn : MssqlConn) : Host :=
  {| argv := args;
     script_file := [lit "C:"; lit "tools"; lit "tablemd.py"];
     files := λ p,
       if bool_decide (p = [lit "C:"; lit "tools"; lit "tablemd.properties"])
       then Ok <$> config else None;
     cx_Oracle := Some {| cx_connect := λ _ _ _, Ok oconn |};
     pyodbc := Some {| odbc_connect := λ _, Ok mconn |} |}.

Definition host_with (args : list pystr) (config : option pystr) : Host :=
  host_on args config empty_oracle empty_mssql.

(** Columns to try the Length/Precision cell on. *)
Definition ora_number_10_0 : OraCol.t :=
  {| OraCol.column_name := lit "QTY"; OraCol.data_type := lit "NUMBER";
     OraCol.data_length := Some 22%Z; OraCol.data_precision := Some 10%Z;
     OraCol.data_scale := Some 0%Z; OraCol.nullable := lit "N";
     OraCol.data_default := None; OraCol.column_comment := None |}.

Definition ms_varchar_255 : MsCol.t :=
  {| MsCol.column_name := lit "NAME"; MsCol.data_type := lit "varchar";
     MsCol.max_length := Some 255%Z; MsCol.precision := Some 0%Z;
     MsCol.scale := Some 0%Z; MsCol.is_nullable := true;
     MsCol.data_default := None; MsCol.column_comment := None |}.

Definition ms_precision_only : MsCol.t :=
  {| MsCol.column_name := lit "AMT"; MsCol.data_type := lit "numeric";
     MsCol.max_length := Some 9%Z; MsCol.precision := Some 10%Z;
     MsCol.scale := None; MsCol.is_nullable := true;
     MsCol.data_default := None; MsCol.column_comment := None |}.

(** The Length/Precision cell of each renderer, as a rule on the three
    numbers. *)
Definition oracle_lens_rule (precision scale length : option Z) : pystr :=
  match precision, scale, length with
  | Some p, Some s, _ => str_int p ++ lit "," ++ str_int s
  | Some p, None, _ => str_int p
  | None, _, Some l => str_int l
  | None, _, None => []
  end.

Definition mssql_lens_rule (precision scale max_length : option Z) : pystr :=
  match precision, scale, max_length with
  | Some p, Some s, l =>
    if (p =? 0)%Z then match l with Some l => str_int l | None => [] end
    else str_int p ++ lit "," ++ str_int s
  | _, _, Some l => str_int l
  | _, _, None => []
  end.

(** A column whose comment has two lines, and a column without a line
    break in any cell. *)
Definition ora_two_line_comment : OraCol.t :=
  {| OraCol.column_name := lit "ID"; OraCol.data_type := lit "NUMBER";
     OraCol.data_length := Some 22%Z; OraCol.data_precision := None;
     OraCol.data_scale := None; OraCol.nullable := lit "N";
     OraCol.data_default := None;
     OraCol.column_comment := Some (lit "key" ++ [ch_lf] ++ lit "never reused") |}.

Definition ms_two_line_comment : MsCol.t :=
  {| MsCol.column_name := lit "ID"; MsCol.data_type := lit "int";
     MsCol.max_length := Some 4%Z; MsCol.precision := Some 10%Z;
     MsCol.scale := Some 0%Z; MsCol.is_nullable := false;
     MsCol.data_default := None;
     MsCol.column_comment := Some (lit "key" ++ [ch_lf] ++ lit "never reused") |}.

(** Configuration texts for the three kinds of [DB_TYPE]. *)
Definition config_oracle : pystr :=
  lit "# connection" ++ [ch_lf] ++ lit "DB_TYPE = Oracle" ++ [ch_lf] ++ lit "ORA_USER=scott".

Definition config_sqlserver : pystr :=
  lit "DB_TYPE=sqlserver" ++ [ch_lf] ++ lit "MSSQL_DBNAME=sales".

Definition config_mysql : pystr := lit "DB_TYPE=mysql".

(** The mapping of a text that loads, the empty one otherwise. *)
Definition loaded (text : pystr) : gmap pystr pystr :=
  match load_properties (Ok text) with
  | Ok conf => conf
  | Raise _ => ∅
  end.

(** A schema with the one table [EMP]. *)
Definition emp_oracle : OracleConn :=
  {| ora_engine := plain_engine;
     all_tables := [(lit "SCOTT", lit "EMP")];
     ora_cols_sql := λ _ _, [ora_number_10_0];
     ora_pk_sql := λ _ _, [lit "QTY"];
     ora_fk_sql := λ _ _, [(lit "QTY", lit "STOCK", lit "ID")] |}.

(** Configurations naming both a service and a SID, and asking for a
    trusted connection. *)
Definition config_oracle_service : pystr :=
  lit "DB_TYPE=oracle" ++ [ch_lf] ++ lit "ORA_USER=scott" ++ [ch_lf]
    ++ lit "ORA_SERVICE = orcl " ++ [ch_lf] ++ lit "ORA_SID=xe".

Definition config_sqlserver_trusted : pystr :=
  lit "DB_TYPE=sqlserver" ++ [ch_lf] ++ lit "MSSQL_TRUSTED_CONNECTION = Yes".

Definition empty_oracle_driver : OracleDriver := {| cx_connect := λ _ _ _, Ok empty_oracle |}.

(** A database with a user table and a table shipped with the server. *)
Definition sales_mssql : MssqlConn :=
  {| ms_engine := plain_engine;
     sys_tables := [(lit "ORDERS", false); (lit "spt_values", true)];
     ms_cols_sql := λ _, [ms_varchar_255];
     ms_pk_sql := λ _, [];
     ms_fk_sql := λ _, [] |}.

(** Cutting a row at its column pipes: the pieces between them, the
    escaped pipes staying inside their piece. *)
Fixpoint split_cells_from (escaped : bool) (cur : pystr) (s : pystr) : list pystr :=
  match s with
  | [] => [reverse cur]
  | c :: s' =>
    if (c =? ch_pipe) && negb escaped then reverse cur :: split_cells_from false [] s'
    else split_cells_from (c =? ch_backslash) (c :: cur) s'
  end.

Definition split_cells (s : pystr) : list pystr := split_cells_from false [] s.

(** A cell value between the two spaces the row format puts around it. *)
Definition padded (s : pystr) : pystr := lit " " ++ s ++ lit " ".

(** A host given by what reading its configuration file gives and by
    its drivers. *)
Definition host_of (args : list pystr) (file : option (result pystr))
    (ora : option OracleDriver) (odbc : option OdbcDriver) : Host :=
  {| argv := args;
     script_file := [lit "C:"; lit "tools"; lit "tablemd.py"];
     files := λ p,
       if bool_decide (p = [lit "C:"; lit "tools"; lit "tablemd.properties"])
       then file else None;
     cx_Oracle := ora;
     pyodbc := odbc |}.

(** Configurations with a port that is no number and without any
    schema or user. *)
Definition config_oracle_bad_port : pystr :=
  lit "DB_TYPE=oracle" ++ [ch_lf] ++ lit "ORA_USER=scott" ++ [ch_lf] ++ lit "ORA_PORT=15x1".

Definition config_oracle_no_user : pystr := lit "DB_TYPE=oracle".

(** * Properties *)

(** ** Strings *)

Lemma contains_elem_of (c : N) (s : pystr) : contains c s = true ↔ c ∈ s.
Proof.
  unfold contains. induction s as [|x s IH]; simpl.
  - split; [discriminate | by intros ?%elem_of_nil].
  - rewrite orb_true_iff, elem_of_cons, N.eqb_eq, IH. done.
Qed.

Lemma contains_bool_decide (c : N) (s : pystr) : contains c s = bool_decide (c ∈ s).
Proof.
  apply eq_true_iff_eq. rewrite contains_elem_of, bool_decide_eq_true. done.
Qed.

Lemma lstrip_spec (s : pystr) :
  ∃ l, s = l ++ lstrip s ∧ forallb is_space l = true
       ∧ (∀ c, head (lstrip s) = Some c → is_space c = false).
Proof.
  induction s as [|c s (l & Hs & Hl & Hh)]; simpl.
  - exists []. naive_solver.
  - destruct (is_space c) eqn:Hc.
    + exists (c :: l). simpl. rewrite Hc, Hl. split; [congruence | done].
    + exists []. simpl. naive_solver.
Qed.

(** [strip] removes exactly a run of white space at each end. *)
Lemma strip_spec (s : pystr) :
  ∃ l r, s = l ++ strip s ++ r
         ∧ forallb is_space l = true ∧ forallb is_space r = true
         ∧ (∀ c, head (strip s) = Some c → is_space c = false)
         ∧ (∀ c, last (strip s) = Some c → is_space c = false).
Proof.
  unfold strip, rstrip.
  destruct (lstrip_spec s) as (l & Hs & Hl & Hh).
  destruct (lstrip_spec (reverse (lstrip s))) as (r & Hr & Hrs & Hrh).
  set (t := lstrip (reverse (lstrip s))) in *.
  assert (Ht : lstrip s = reverse t ++ reverse r).
  { rewrite <- (reverse_involutive (lstrip s)), Hr, reverse_app. done. }
  exists l, (reverse r). repeat split.
  - rewrite <- Ht. done.
  - done.
  - rewrite forallb_forall in *. intros x Hx. apply Hrs.
    rewrite <- list_elem_of_In in Hx |- *. by rewrite elem_of_reverse in Hx.
  - intros c Hc. destruct (reverse t) as [|x u] eqn:Hu; [done|].
    simpl in Hc. simplify_eq. apply Hh. rewrite Ht. done.
  - intros c Hc. apply Hrh. by rewrite last_reverse in Hc.
Qed.

Lemma split1_from_find (sep : N) (acc s : pystr) :
  split1_from sep acc s =
    match first_index sep s with
    | Some i => [reverse acc ++ take i s; drop (S i) s]
    | None => [reverse acc ++ s]
    end.
Proof.
  unfold first_index. revert acc. induction s as [|c s IH]; intros acc; simpl.
  - by rewrite app_nil_r.
  - destruct (N.eqb_spec c sep) as [->|Hne].
    + rewrite decide_True by done. simpl. by rewrite app_nil_r.
    + rewrite decide_False by done. rewrite IH.
      destruct (list_find (λ x, x = sep) s) as [[i y]|]; simpl;
        rewrite reverse_cons, <- app_assoc; done.
Qed.

Lemma first_index_contains (c : N) (s : pystr) :
  contains c s = bool_decide (is_Some (first_index c s)).
Proof.
  unfold first_index. apply eq_true_iff_eq.
  rewrite contains_elem_of, bool_decide_eq_true, fmap_is_Some. split.
  - intros H. by eapply (list_find_elem_of (λ x, x = c)).
  - intros [[i y] [Hl [? _]]%list_find_Some]. subst.
    by eapply list_elem_of_lookup_2.
Qed.

(** ** Assignments to a dictionary *)

Lemma last_assigned_cons {V} (k : pystr) (kv : pystr * V) (kvs : list (pystr * V)) :
  last_assigned k (kv :: kvs) =
    match last_assigned k kvs with
    | Some v => Some v
    | None => if decide (kv.1 = k) then Some kv.2 else None
    end.
Proof.
  unfold last_assigned. simpl. destruct (decide (kv.1 = k)); simpl.
  - by rewrite last_cons.
  - by destruct (last _).
Qed.

Lemma foldl_insert_lookup {V} (k : pystr) (kvs : list (pystr * V)) (m : gmap pystr V) :
  foldl (λ m kv, <[kv.1 := kv.2]> m) m kvs !! k =
    match last_assigned k kvs with
    | Some v => Some v
    | None => m !! k
    end.
Proof.
  revert m. induction kvs as [|kv kvs IH]; intros m; simpl; [done|].
  rewrite IH, last_assigned_cons. destruct (last_assigned k kvs); [done|].
  rewrite lookup_insert. by destruct (decide (kv.1 = k)).
Qed.

(** ** The configuration loader *)

Lemma load_line_entry (conf : gmap pystr pystr) (line : pystr) :
  load_line conf line =
    Ok (match line_entry line with
        | Some (k, v) => <[k := v]> conf
        | None => conf
        end).
Proof.
  unfold load_line, line_entry.
  destruct (strip line) as [|c t] eqn:Ht.
  - rewrite decide_True by auto. done.
  - cbn [truthy negb orb startswith].
    destruct (N.eqb_spec c ch_hash) as [->|Hne].
    + rewrite decide_True by auto. done.
    + rewrite decide_False by (intros [?|?]; simplify_eq/=).
      rewrite first_index_contains. unfold split1. rewrite split1_from_find.
      destruct (first_index ch_equals (c :: t)) as [i|].
      * rewrite bool_decide_eq_true_2 by eauto. done.
      * rewrite bool_decide_eq_false_2 by (intros [? ?]; done). done.
Qed.

(** A line whose first character is [#] is a comment whatever follows:
    trimming leaves the [#] in front. *)
Lemma comment_line_no_entry (line : pystr) :
  head line = Some ch_hash → line_entry line = None.
Proof.
  intros Hh. unfold line_entry.
  destruct (strip_spec line) as (l & r & Hs & Hl & Hr & _ & _).
  destruct line as [|c line]; [done|]. simpl in Hh. simplify_eq.
  destruct l as [|x l]; [|by simplify_eq/=].
  destruct (strip (ch_hash :: line)) as [|y t] eqn:Ht.
  - destruct r as [|x r]; [done|]. by simplify_eq/=.
  - simpl in Hs. simplify_eq. by rewrite decide_True by auto.
Qed.

Lemma load_lines_foldl (conf : gmap pystr pystr) (lines : list pystr) :
  load_lines conf lines =
    Ok (foldl (λ m kv, <[kv.1 := kv.2]> m) conf (omap line_entry lines)).
Proof.
  revert conf. induction lines as [|line lines IH]; intros conf; simpl; [done|].
  rewrite load_line_entry. destruct (line_entry line) as [[k v]|]; simpl; apply IH.
Qed.

(** C3.  For every text the loader returns a mapping and raises nothing.
    Line by line, a line that is empty after trimming or begins with [#]
    once trimmed gives no entry, a line with [=] gives the trimmed text
    before the first [=] as key and the trimmed text after it as value,
    a line without [=] gives no entry; the mapping holds for each key
    the value of the last line that assigns it. *)
Theorem load_properties_last_entry (text : pystr) :
  ∃ conf : gmap pystr pystr,
    load_properties (Ok text) = Ok conf
    ∧ ∀ k, conf !! k = last_assigned k (omap line_entry (splitlines text)).
Proof.
  eexists. split.
  - simpl. apply load_lines_foldl.
  - intros k. rewrite foldl_insert_lookup, lookup_empty.
    by destruct (last_assigned _ _).
Qed.

(** ** The foreign-key map *)

Lemma fk_loop_foldl (rows : list (pystr * pystr * pystr)) (m : gmap pystr pystr) :
  fk_loop m rows = foldl (λ m kv, <[kv.1 := kv.2]> m) m (fk_assignments rows).
Proof.
  revert m. induction rows as [|[[col rtbl] rcol] rows IH]; intros m; simpl; [done|].
  apply IH.
Qed.

Lemma fk_loop_lookup (rows : list (pystr * pystr * pystr)) (col : pystr) :
  fk_loop ∅ rows !! col = last_assigned col (fk_assignments rows).
Proof.
  rewrite fk_loop_foldl, foldl_insert_lookup, lookup_empty.
  by destruct (last_assigned _ _).
Qed.

(** C5.  In both collectors the foreign-key map holds for a column the
    target [Table.Column] of the last row of the foreign-key query that
    names the column, and nothing for a column no row names: a column in
    several constraints keeps one target, the last one seen. *)
Theorem fk_map_last_seen_wins (rt : Runtime) (oconn : OracleConn) (schema table : pystr)
    (mconn : MssqlConn) (col : pystr) :
  (∃ cols pk_cols fk_map,
      oracle_collect_meta rt oconn (Some schema) table = Ok (cols, pk_cols, fk_map)
      ∧ fk_map !! col =
          last_assigned col
            (fk_assignments (ora_fk_sql oconn (py_upper rt schema) (py_upper rt table))))
  ∧ (mssql_collect_meta mconn table).2 !! col =
      last_assigned col (fk_assignments (ms_fk_sql mconn table)).
Proof.
  split.
  - do 3 eexists. split; [reflexivity|]. apply fk_loop_lookup.
  - apply fk_loop_lookup.
Qed.

(** ** The table enumerator *)

Lemma is_like_pattern_wildcard (pat : pystr) :
  is_like_pattern pat = bool_decide (ch_percent ∈ pat ∨ ch_underscore ∈ pat).
Proof.
  unfold is_like_pattern. rewrite !contains_bool_decide.
  apply eq_true_iff_eq. rewrite orb_true_iff, !bool_decide_eq_true. done.
Qed.

Lemma mssql_where_like (E : SqlEngine) (pat : pystr) (t : pystr * bool) :
  mssql_where E 1 pat 1 pat t = negb t.2 && LIKE E (UPPER E t.1) (UPPER E pat).
Proof. unfold mssql_where. simpl. by rewrite orb_false_r. Qed.

Lemma mssql_where_exact (E : SqlEngine) (pat : pystr) (t : pystr * bool) :
  mssql_where E 0 pat 0 pat t = negb t.2 && EQ E (UPPER E t.1) (UPPER E pat).
Proof. unfold mssql_where. done. Qed.

(** C2.  The pattern is a [LIKE] pattern exactly when it contains [%] or
    [_].  With such a pattern the Oracle enumerator runs the query whose
    predicate is [UPPER(table_name) LIKE UPPER(:pat)] and the SQL Server
    query selects by [UPPER(t.name) LIKE UPPER(?)]; with any other
    pattern both select by equality of the upper-cased names. *)
Theorem like_path_iff_wildcard (rt : Runtime) (oconn : OracleConn) (schema : pystr)
    (mconn : MssqlConn) (dbname pat : pystr) :
  (is_like_pattern pat = true ↔ ch_percent ∈ pat ∨ ch_underscore ∈ pat)
  ∧ oracle_fetch_tables rt oconn (Some schema) pat =
      Ok (oracle_select_tables oconn
            (if bool_decide (ch_percent ∈ pat ∨ ch_underscore ∈ pat)
             then oracle_where_like (ora_engine oconn) (py_upper rt schema) pat
             else oracle_where_eq (ora_engine oconn) (py_upper rt schema) pat))
  ∧ mssql_fetch_tables mconn dbname pat =
      ORDER_BY (ms_engine mconn)
        (map fst
           (List.filter
              (λ t : pystr * bool,
                 negb t.2
                 && (if bool_decide (ch_percent ∈ pat ∨ ch_underscore ∈ pat)
                     then LIKE (ms_engine mconn) (UPPER (ms_engine mconn) t.1)
                            (UPPER (ms_engine mconn) pat)
                     else EQ (ms_engine mconn) (UPPER (ms_engine mconn) t.1)
                            (UPPER (ms_engine mconn) pat)))
              (sys_tables mconn))).
Proof.
  split; [|split].
  - by rewrite is_like_pattern_wildcard, bool_decide_eq_true.
  - unfold oracle_fetch_tables. simpl. rewrite is_like_pattern_wildcard.
    by destruct (bool_decide _).
  - unfold mssql_fetch_tables. rewrite is_like_pattern_wildcard.
    do 2 f_equal. apply List.filter_ext. intros t.
    destruct (bool_decide _); [apply mssql_where_like | apply mssql_where_exact].
Qed.

(** ** The cells of a data row *)

Lemma oracle_lens_as_rule (c : OraCol.t) :
  oracle_lens c =
    oracle_lens_rule (OraCol.data_precision c) (OraCol.data_scale c) (OraCol.data_length c).
Proof.
  unfold oracle_lens, oracle_lens_rule.
  destruct (OraCol.data_precision c), (OraCol.data_scale c), (OraCol.data_length c); done.
Qed.

Lemma mssql_lens_as_rule (c : MsCol.t) :
  mssql_lens c = mssql_lens_rule (MsCol.precision c) (MsCol.scale c) (MsCol.max_length c).
Proof.
  unfold mssql_lens, mssql_lens_rule, truthy_num.
  destruct (MsCol.precision c) as [p|], (MsCol.scale c), (MsCol.max_length c);
    try done; destruct (p =? 0)%Z; done.
Qed.

(** C1, as the code has it.  The Oracle renderer writes
    [precision,scale] when both are present, whatever the scale,
    [precision] when the scale is absent, the data length when the
    precision is absent, and nothing when the length is absent too.  The
    SQL Server renderer writes [precision,scale] when the precision is
    present and not 0 and the scale is present, and otherwise the max
    length when present, else nothing. *)
Theorem lens_cell_by_backend (oc : OraCol.t) (mc : MsCol.t) :
  oracle_lens oc =
    match OraCol.data_precision oc, OraCol.data_scale oc, OraCol.data_length oc with
    | Some p, Some s, _ => str_int p ++ lit "," ++ str_int s
    | Some p, None, _ => str_int p
    | None, _, Some l => str_int l
    | None, _, None => []
    end
  ∧ mssql_lens mc =
    match MsCol.precision mc, MsCol.scale mc, MsCol.max_length mc with
    | Some p, Some s, l =>
      if (p =? 0)%Z then match l with Some l => str_int l | None => [] end
      else str_int p ++ lit "," ++ str_int s
    | _, _, Some l => str_int l
    | _, _, None => []
    end
  ∧ oracle_lens_rule (Some 10%Z) (Some 2%Z) None = lit "10,2"
  ∧ mssql_lens_rule (Some 10%Z) (Some 2%Z) None = lit "10,2"
  ∧ oracle_lens_rule None None (Some 255%Z) = lit "255"
  ∧ mssql_lens_rule None None (Some 255%Z) = lit "255"
  ∧ oracle_lens_rule None None None = []
  ∧ mssql_lens_rule None None None = [].
Proof.
  split; [apply oracle_lens_as_rule|]. split; [apply mssql_lens_as_rule|].
  repeat split; vm_compute; reflexivity.
Qed.

(** C1 as worded fails: Oracle writes [10,0] for a scale of 0, and SQL
    Server writes the max length for a precision of 0 and for a
    precision without scale. *)
Lemma lens_cell_not_as_claimed :
  oracle_lens ora_number_10_0 ≠ claimed_lens (Some 10%Z) (Some 0%Z) (Some 22%Z)
  ∧ mssql_lens ms_varchar_255 ≠ claimed_lens (Some 0%Z) (Some 0%Z) (Some 255%Z)
  ∧ mssql_lens ms_precision_only ≠ claimed_lens (Some 10%Z) None (Some 9%Z).
Proof. repeat split; vm_compute; discriminate. Qed.

Lemma lens_cell_examples :
  oracle_lens ora_number_10_0 = lit "10,0"
  ∧ claimed_lens (Some 10%Z) (Some 0%Z) (Some 22%Z) = lit "10"
  ∧ mssql_lens ms_varchar_255 = lit "255"
  ∧ mssql_lens ms_precision_only = lit "9".
Proof. repeat split; vm_compute; reflexivity. Qed.

(** C8.  In both renderers the PK cell is [Y] exactly when the column
    name is in the primary-key set, and empty exactly when it is not. *)
Theorem pk_cell_iff_member (oc : OraCol.t) (mc : MsCol.t) (pk_cols : gset pystr) :
  (oracle_is_pk oc pk_cols = lit "Y" ↔ OraCol.column_name oc ∈ pk_cols)
  ∧ (oracle_is_pk oc pk_cols = [] ↔ OraCol.column_name oc ∉ pk_cols)
  ∧ (mssql_is_pk mc pk_cols = lit "Y" ↔ MsCol.column_name mc ∈ pk_cols)
  ∧ (mssql_is_pk mc pk_cols = [] ↔ MsCol.column_name mc ∉ pk_cols).
Proof.
  unfold oracle_is_pk, mssql_is_pk.
  repeat split; intros H; try (case_bool_decide; done);
    case_bool_decide; try done; by vm_compute in H.
Qed.

Lemma fk_target_truthy (rtbl rcol : pystr) : truthy (fk_target rtbl rcol) = true.
Proof. unfold fk_target. by destruct rtbl. Qed.

Lemma fk_loop_truthy (rows : list (pystr * pystr * pystr)) (col t : pystr) :
  fk_loop ∅ rows !! col = Some t → truthy t = true.
Proof.
  rewrite fk_loop_lookup. unfold last_assigned. intros H%last_Some_elem_of.
  apply list_elem_of_omap in H as ([k v] & Hin & Hkv).
  unfold fk_assignments in Hin. apply list_elem_of_fmap in Hin as ([[c a] b] & Heq & _).
  simpl in *. case_decide; simplify_eq. apply fk_target_truthy.
Qed.

Lemma fk_cell_of_truthy (t : pystr) :
  truthy t = true → fk_cell_of t = lit "FK → `" ++ t ++ lit "`".
Proof. unfold fk_cell_of. by intros ->. Qed.

Lemma fk_cell_lookup (name : pystr) (rows : list (pystr * pystr * pystr)) :
  fk_cell_of (get_default (fk_loop ∅ rows) name []) =
    match fk_loop ∅ rows !! name with
    | Some t => lit "FK → `" ++ t ++ lit "`"
    | None => []
    end.
Proof.
  unfold get_default. destruct (fk_loop ∅ rows !! name) as [t|] eqn:Ht; simpl; [|done].
  apply fk_cell_of_truthy. by eapply fk_loop_truthy.
Qed.

(** C9.  With the foreign-key map a collector builds from the rows of
    its foreign-key query, the FK cell of a column is the arrow followed
    by the recorded [Table.Column] between backticks when the map has an
    entry for the column name, and empty when it has none. *)
Theorem fk_cell_iff_target (oc : OraCol.t) (mc : MsCol.t)
    (fk_rows : list (pystr * pystr * pystr)) :
  oracle_fk_cell oc (fk_loop ∅ fk_rows) =
    match fk_loop ∅ fk_rows !! OraCol.column_name oc with
    | Some t => lit "FK → `" ++ t ++ lit "`"
    | None => []
    end
  ∧ mssql_fk_cell mc (fk_loop ∅ fk_rows) =
    match fk_loop ∅ fk_rows !! MsCol.column_name mc with
    | Some t => lit "FK → `" ++ t ++ lit "`"
    | None => []
    end
  ∧ (oracle_fk_cell oc (fk_loop ∅ fk_rows) = []
     ↔ fk_loop ∅ fk_rows !! OraCol.column_name oc = None)
  ∧ (mssql_fk_cell mc (fk_loop ∅ fk_rows) = []
     ↔ fk_loop ∅ fk_rows !! MsCol.column_name mc = None).
Proof.
  unfold oracle_fk_cell, oracle_fk_to, mssql_fk_cell, mssql_fk_to.
  rewrite !fk_cell_lookup. repeat split; try done.
  - by destruct (_ !! _).
  - by intros ->.
  - by destruct (_ !! _).
  - by intros ->.
Qed.

(** ** Pipes and columns *)

Lemma column_pipes_from_none (b : bool) (s : pystr) :
  ch_pipe ∉ s → column_pipes_from b s = 0%nat.
Proof.
  revert b. induction s as [|c s IH]; intros b Hs; simpl; [done|].
  apply not_elem_of_cons in Hs as [Hc Hs].
  destruct (N.eqb_spec c ch_pipe); [congruence|]. simpl. by apply IH.
Qed.

Lemma column_pipes_from_app_none (b : bool) (s t : pystr) :
  ch_pipe ∉ t → column_pipes_from b (s ++ t) = column_pipes_from b s.
Proof.
  intros Ht. revert b. induction s as [|c s IH]; intros b; simpl.
  - by apply column_pipes_from_none.
  - by rewrite IH.
Qed.

(** A cell is followed by a space, so what the cell ends with cannot
    escape the pipe after it. *)
Lemma column_pipes_from_cell (b : bool) (cell rest : pystr) :
  column_pipes_from b (cell ++ 32 :: 124 :: 32 :: rest) =
    (column_pipes_from b cell + S (column_pipes_from false rest))%nat.
Proof.
  revert b. induction cell as [|c s IH]; intros b; simpl; [done|].
  rewrite IH. by destruct (_ && _).
Qed.

Lemma column_pipes_from_last_cell (b : bool) (cell : pystr) :
  column_pipes_from b (cell ++ [32; 124]) = S (column_pipes_from b cell).
Proof.
  revert b. induction cell as [|c s IH]; intros b; simpl; [done|].
  rewrite IH. by destruct (_ && _).
Qed.

Lemma format_row_cells (name dtype lens nullable default_ is_pk fk_cell comment : pystr) :
  format_row name dtype lens nullable default_ is_pk fk_cell comment =
    124 :: 32 :: name ++ 32 :: 124 :: 32 :: dtype ++ 32 :: 124 :: 32 :: lens
      ++ 32 :: 124 :: 32 :: nullable ++ 32 :: 124 :: 32 :: default_
      ++ 32 :: 124 :: 32 :: is_pk ++ 32 :: 124 :: 32 :: fk_cell
      ++ 32 :: 124 :: 32 :: comment ++ [32; 124].
Proof. reflexivity. Qed.

Lemma column_pipes_format_row
    (name dtype lens nullable default_ is_pk fk_cell comment : pystr) :
  column_pipes (format_row name dtype lens nullable default_ is_pk fk_cell comment) =
    (9 + column_pipes name + column_pipes dtype + column_pipes lens + column_pipes nullable
     + column_pipes default_ + column_pipes is_pk + column_pipes fk_cell
     + column_pipes comment)%nat.
Proof.
  rewrite format_row_cells. unfold column_pipes.
  change (column_pipes_from false (124 :: 32 :: ?s)) with (S (column_pipes_from false s)).
  rewrite !column_pipes_from_cell, column_pipes_from_last_cell. lia.
Qed.

Lemma column_pipes_replace (b : bool) (s : pystr) :
  column_pipes_from b (replace ch_pipe [ch_backslash; ch_pipe] s) = 0%nat.
Proof.
  revert b. induction s as [|c s IH]; intros b; simpl; [done|].
  destruct (N.eqb_spec c ch_pipe) as [->|Hc]; simpl.
  - apply IH.
  - destruct (N.eqb_spec c ch_pipe); [done|]. simpl. apply IH.
Qed.

Lemma column_pipes_md_escape (s : option pystr) : column_pipes (md_escape s) = 0%nat.
Proof. apply column_pipes_replace. Qed.

Lemma unescape_replace (s : pystr) :
  unescape_pipes (replace ch_pipe [ch_backslash; ch_pipe] s) = s.
Proof.
  induction s as [|c s IH]; [done|].
  cbn [replace]. destruct (N.eqb_spec c ch_pipe) as [->|Hc].
  - simpl. by rewrite IH.
  - destruct s as [|c' s]; [done|].
    cbn [replace] in *. destruct (N.eqb_spec c' ch_pipe) as [->|Hc'].
    + cbn [app unescape_pipes] in *.
      replace ((c =? ch_backslash) && (ch_backslash =? ch_pipe)) with false
        by (by rewrite andb_false_r).
      by rewrite IH.
    + cbn [unescape_pipes] in *.
      replace ((c =? ch_backslash) && (c' =? ch_pipe)) with false.
      * by rewrite IH.
      * destruct (N.eqb_spec c' ch_pipe); [done|]. by rewrite andb_false_r.
Qed.

Lemma digits_no_pipe (u : Decimal.uint) : ch_pipe ∉ digits u.
Proof.
  induction u; simpl; [apply not_elem_of_nil|..];
    apply not_elem_of_cons; (split; [done|assumption]).
Qed.

Lemma str_int_no_pipe (z : Z) : ch_pipe ∉ str_int z.
Proof.
  unfold str_int. destruct (Z.to_int z); [apply digits_no_pipe|].
  apply not_elem_of_cons. split; [done | apply digits_no_pipe].
Qed.

Lemma column_pipes_str_int (z : Z) : column_pipes (str_int z) = 0%nat.
Proof. apply column_pipes_from_none, str_int_no_pipe. Qed.

Lemma column_pipes_pair (p s : Z) :
  column_pipes (str_int p ++ lit "," ++ str_int s) = 0%nat.
Proof.
  apply column_pipes_from_none. rewrite !elem_of_app.
  intros [H|[H|H]]; [by apply str_int_no_pipe in H | | by apply str_int_no_pipe in H].
  by apply list_elem_of_singleton in H.
Qed.

Lemma column_pipes_oracle_lens (c : OraCol.t) : column_pipes (oracle_lens c) = 0%nat.
Proof.
  unfold oracle_lens.
  destruct (OraCol.data_precision c), (OraCol.data_scale c), (OraCol.data_length c);
    auto using column_pipes_pair, column_pipes_str_int.
Qed.

Lemma column_pipes_mssql_lens (c : MsCol.t) : column_pipes (mssql_lens c) = 0%nat.
Proof.
  unfold mssql_lens.
  destruct (truthy_num _), (MsCol.precision c) as [p|], (MsCol.scale c), (MsCol.max_length c);
    try destruct (negb _); auto using column_pipes_pair, column_pipes_str_int.
Qed.

Lemma column_pipes_fk_cell_of (t : pystr) : column_pipes (fk_cell_of t) = column_pipes t.
Proof.
  unfold fk_cell_of. destruct t as [|c t]; [done|]. cbn [truthy].
  change (lit "FK → `") with [70; 75; 32; 8594; 32; 96].
  change (lit "`") with [96]. unfold column_pipes.
  change (column_pipes_from false ([70; 75; 32; 8594; 32; 96] ++ ?s))
    with (column_pipes_from false s).
  apply column_pipes_from_app_none. by intros ?%list_elem_of_singleton.
Qed.

Lemma column_pipes_oracle_row (c : OraCol.t) (pk_cols : gset pystr) (fk_map : gmap pystr pystr) :
  column_pipes (oracle_row c pk_cols fk_map) =
    (9 + column_pipes (OraCol.column_name c) + column_pipes (OraCol.data_type c)
     + column_pipes (oracle_fk_to c fk_map))%nat.
Proof.
  unfold oracle_row. rewrite column_pipes_format_row.
  rewrite column_pipes_oracle_lens.
  unfold oracle_default, oracle_comment, oracle_fk_cell.
  rewrite !column_pipes_md_escape, column_pipes_fk_cell_of.
  assert (column_pipes (oracle_nullable c) = 0%nat) as ->.
  { unfold oracle_nullable. by destruct (bool_decide _). }
  assert (column_pipes (oracle_is_pk c pk_cols) = 0%nat) as ->.
  { unfold oracle_is_pk. by destruct (bool_decide _). }
  lia.
Qed.

Lemma column_pipes_mssql_row (c : MsCol.t) (pk_cols : gset pystr) (fk_map : gmap pystr pystr) :
  column_pipes (mssql_row c pk_cols fk_map) =
    (9 + column_pipes (MsCol.column_name c) + column_pipes (MsCol.data_type c)
     + column_pipes (mssql_fk_to c fk_map))%nat.
Proof.
  unfold mssql_row. rewrite column_pipes_format_row.
  rewrite column_pipes_mssql_lens.
  unfold mssql_default, mssql_comment, mssql_fk_cell.
  rewrite !column_pipes_md_escape, column_pipes_fk_cell_of.
  assert (column_pipes (mssql_nullable c) = 0%nat) as ->.
  { unfold mssql_nullable. by destruct (MsCol.is_nullable c). }
  assert (column_pipes (mssql_is_pk c pk_cols) = 0%nat) as ->.
  { unfold mssql_is_pk. by destruct (bool_decide _). }
  lia.
Qed.

Lemma or_empty_some (d : pystr) : or_empty (Some d) = d.
Proof. by destruct d. Qed.

(** C7.  In both renderers the Default cell of a column with default
    expression [d] is the trimmed [d] with each [|] replaced by a
    backslash and [|]; it is empty when the column has no default.  The
    cell has no pipe outside the escaped form, reading the escapes back
    gives the trimmed expression, and the number of column pipes of the
    row is the same whatever the default is. *)
Theorem default_cell_escaped (oc : OraCol.t) (mc : MsCol.t) (d : pystr)
    (pk_cols : gset pystr) (fk_map : gmap pystr pystr) :
  oracle_default (ora_with_default (Some d) oc)
    = replace ch_pipe [ch_backslash; ch_pipe] (strip d)
  ∧ mssql_default (ms_with_default (Some d) mc)
    = replace ch_pipe [ch_backslash; ch_pipe] (strip d)
  ∧ oracle_default (ora_with_default None oc) = []
  ∧ mssql_default (ms_with_default None mc) = []
  ∧ column_pipes (oracle_default (ora_with_default (Some d) oc)) = 0%nat
  ∧ column_pipes (mssql_default (ms_with_default (Some d) mc)) = 0%nat
  ∧ unescape_pipes (oracle_default (ora_with_default (Some d) oc)) = strip d
  ∧ unescape_pipes (mssql_default (ms_with_default (Some d) mc)) = strip d
  ∧ column_pipes (oracle_row (ora_with_default (Some d) oc) pk_cols fk_map) =
      column_pipes (oracle_row (ora_with_default None oc) pk_cols fk_map)
  ∧ column_pipes (mssql_row (ms_with_default (Some d) mc) pk_cols fk_map) =
      column_pipes (mssql_row (ms_with_default None mc) pk_cols fk_map).
Proof.
  assert (Ho : oracle_default (ora_with_default (Some d) oc)
               = replace ch_pipe [ch_backslash; ch_pipe] (strip d)).
  { unfold oracle_default, md_escape. cbn [ora_with_default OraCol.data_default].
    by rewrite !or_empty_some. }
  assert (Hm : mssql_default (ms_with_default (Some d) mc)
               = replace ch_pipe [ch_backslash; ch_pipe] (strip d)).
  { unfold mssql_default, md_escape. cbn [ms_with_default MsCol.data_default].
    by rewrite !or_empty_some. }
  rewrite Ho, Hm. repeat split.
  - apply column_pipes_replace.
  - apply column_pipes_replace.
  - apply unescape_replace.
  - apply unescape_replace.
  - by rewrite !column_pipes_oracle_row.
  - by rewrite !column_pipes_mssql_row.
Qed.

(** C10.  Name, data type and foreign-key target are put into the row as
    they are: the row has its nine pipes of the layout plus every pipe of
    the column name, of the data type and of the foreign-key target that
    is not preceded by a backslash; the other five cells add none. *)
Theorem pipes_of_unescaped_cells (oc : OraCol.t) (mc : MsCol.t)
    (pk_cols : gset pystr) (fk_map : gmap pystr pystr) :
  (∃ rest, oracle_row oc pk_cols fk_map =
             lit "| " ++ OraCol.column_name oc ++ lit " | " ++ OraCol.data_type oc
               ++ lit " | " ++ rest)
  ∧ (∃ rest, mssql_row mc pk_cols fk_map =
             lit "| " ++ MsCol.column_name mc ++ lit " | " ++ MsCol.data_type mc
               ++ lit " | " ++ rest)
  ∧ oracle_fk_cell oc fk_map = fk_cell_of (get_default fk_map (OraCol.column_name oc) [])
  ∧ mssql_fk_cell mc fk_map = fk_cell_of (get_default fk_map (MsCol.column_name mc) [])
  ∧ column_pipes (oracle_row oc pk_cols fk_map) =
      (9 + column_pipes (OraCol.column_name oc) + column_pipes (OraCol.data_type oc)
       + column_pipes (get_default fk_map (OraCol.column_name oc) []))%nat
  ∧ column_pipes (mssql_row mc pk_cols fk_map) =
      (9 + column_pipes (MsCol.column_name mc) + column_pipes (MsCol.data_type mc)
       + column_pipes (get_default fk_map (MsCol.column_name mc) []))%nat.
Proof.
  split; [by eexists|]. split; [by eexists|]. repeat split.
  - apply column_pipes_oracle_row.
  - apply column_pipes_mssql_row.
Qed.

(** ** The rendered document *)

Lemma fold_left_append {A} (f : A → pystr) (xs : list A) (lines : list pystr) :
  fold_left (λ lines x, lines ++ [f x]) xs lines = lines ++ map f xs.
Proof.
  revert lines. induction xs as [|x xs IH]; intros lines; simpl.
  - by rewrite app_nil_r.
  - by rewrite IH, <- app_assoc.
Qed.

Lemma oracle_lines_rows (table : pystr) (cols : list OraCol.t)
    (pk_cols : gset pystr) (fk_map : gmap pystr pystr) :
  oracle_lines table cols pk_cols fk_map =
    [heading table; header_row; separator_row]
      ++ map (λ c, oracle_row c pk_cols fk_map) cols.
Proof. apply fold_left_append. Qed.

Lemma mssql_lines_rows (table : pystr) (cols : list MsCol.t)
    (pk_cols : gset pystr) (fk_map : gmap pystr pystr) :
  mssql_lines table cols pk_cols fk_map =
    [heading table; header_row; separator_row]
      ++ map (λ c, mssql_row c pk_cols fk_map) cols.
Proof. apply fold_left_append. Qed.

Lemma count_lf_app (s t : pystr) : count_lf (s ++ t) = (count_lf s + count_lf t)%nat.
Proof. unfold count_lf. by rewrite List.filter_app, length_app. Qed.

Lemma count_lf_zero (s : pystr) : count_lf s = 0%nat ↔ ch_lf ∉ s.
Proof.
  unfold count_lf. induction s as [|c s IH].
  - split; [intros _; apply not_elem_of_nil | done].
  - cbn [List.filter]. rewrite not_elem_of_cons.
    destruct (N.eqb_spec ch_lf c) as [Heq|Hne]; cbn [length].
    + split; [discriminate | by intros [? _]].
    + rewrite IH. split; [by intros ? | by intros [_ ?]].
Qed.

Lemma text_lines_from_length (cur s : pystr) :
  length (text_lines_from cur s) = S (count_lf s).
Proof.
  unfold count_lf. revert cur. induction s as [|c s IH]; intros cur; [done|].
  cbn [text_lines_from List.filter]. rewrite (N.eqb_sym ch_lf c).
  destruct (c =? ch_lf); cbn [length]; by rewrite IH.
Qed.

Lemma text_lines_from_line (cur s rest : pystr) :
  ch_lf ∉ s →
  text_lines_from cur (s ++ ch_lf :: rest) = (reverse cur ++ s) :: text_lines_from [] rest.
Proof.
  revert cur. induction s as [|c s IH]; intros cur Hs; simpl.
  - by rewrite app_nil_r.
  - apply not_elem_of_cons in Hs as [Hc Hs].
    destruct (N.eqb_spec c ch_lf); [congruence|].
    rewrite IH by done. by rewrite reverse_cons, <- app_assoc.
Qed.

Lemma text_lines_from_last (cur s : pystr) :
  ch_lf ∉ s → text_lines_from cur s = [reverse cur ++ s].
Proof.
  revert cur. induction s as [|c s IH]; intros cur Hs; simpl.
  - by rewrite app_nil_r.
  - apply not_elem_of_cons in Hs as [Hc Hs].
    destruct (N.eqb_spec c ch_lf); [congruence|].
    rewrite IH by done. by rewrite reverse_cons, <- app_assoc.
Qed.

(** Joining lines without line feeds and cutting at the line feeds gives
    the lines back. *)
Lemma text_lines_join (p : pystr) (parts : list pystr) :
  Forall (λ s, ch_lf ∉ s) (p :: parts) →
  text_lines (join [ch_lf] (p :: parts)) = p :: parts.
Proof.
  unfold text_lines. revert p. induction parts as [|q parts IH]; intros p Hall.
  - simpl. apply text_lines_from_last. by apply Forall_inv in Hall.
  - apply Forall_cons in Hall as [Hp Hall].
    change (join [ch_lf] (p :: q :: parts)) with (p ++ ch_lf :: join [ch_lf] (q :: parts)).
    rewrite text_lines_from_line by done. by rewrite IH.
Qed.

Lemma count_lf_join (p : pystr) (parts : list pystr) :
  count_lf (join [ch_lf] (p :: parts)) =
    (length parts + sum_list (count_lf <$> (p :: parts)))%nat.
Proof.
  revert p. induction parts as [|q parts IH]; intros p.
  - simpl. lia.
  - change (join [ch_lf] (p :: q :: parts)) with (p ++ [ch_lf] ++ join [ch_lf] (q :: parts)).
    rewrite !count_lf_app, IH. simpl. change (count_lf [ch_lf]) with 1%nat. lia.
Qed.

Lemma count_lf_heading (table : pystr) : count_lf (heading table) = S (count_lf table).
Proof.
  unfold heading. rewrite !count_lf_app.
  change (count_lf [ch_lf]) with 1%nat.
  replace (count_lf (lit "## 表格名稱:")) with 0%nat by (by vm_compute). lia.
Qed.

(** The text written for a table whose data rows are [rows]. *)
Lemma document_line_count (table : pystr) (rows : list pystr) :
  length (text_lines (join [ch_lf] ([heading table; header_row; separator_row] ++ rows))) =
    (4 + length rows + count_lf table + sum_list (count_lf <$> rows))%nat.
Proof.
  unfold text_lines. rewrite text_lines_from_length.
  cbn [app]. rewrite count_lf_join. cbn [fmap list_fmap sum_list length].
  rewrite count_lf_heading.
  replace (count_lf header_row) with 0%nat by (by vm_compute).
  replace (count_lf separator_row) with 0%nat by (by vm_compute).
  unfold id. lia.
Qed.

Lemma document_lines (table : pystr) (rows : list pystr) :
  ch_lf ∉ table → Forall (λ s, ch_lf ∉ s) rows →
  text_lines (join [ch_lf] ([heading table; header_row; separator_row] ++ rows)) =
    [lit "## 表格名稱:" ++ table; []; header_row; separator_row] ++ rows.
Proof.
  intros Ht Hrows.
  assert (join [ch_lf] ([heading table; header_row; separator_row] ++ rows)
          = join [ch_lf] ((lit "## 表格名稱:" ++ table)
                            :: [] :: header_row :: separator_row :: rows)) as ->.
  { cbn [app join]. unfold heading. by rewrite <- !app_assoc. }
  apply text_lines_join.
  repeat apply Forall_cons_2; try done.
  - rewrite elem_of_app. intros [H|H]; [|done].
    revert H. apply count_lf_zero. by vm_compute.
  - apply not_elem_of_nil.
  - apply count_lf_zero. by vm_compute.
  - apply count_lf_zero. by vm_compute.
Qed.

(** C6, as the code has it.  Both renderers join with line feeds the
    heading (which ends in a line feed of its own), the header row, the
    separator row and one row per column in the order of [cols].  The
    text has 4 + N lines plus one for every line feed in the table name
    or in a data row; when neither holds a line feed its lines are the
    heading, an empty line, the header row, the separator row and the N
    data rows in column order. *)
Theorem document_structure (table : pystr) (ocols : list OraCol.t) (mcols : list MsCol.t)
    (pk_cols : gset pystr) (fk_map : gmap pystr pystr) :
  oracle_lines table ocols pk_cols fk_map =
    [heading table; header_row; separator_row]
      ++ map (λ c, oracle_row c pk_cols fk_map) ocols
  ∧ mssql_lines table mcols pk_cols fk_map =
    [heading table; header_row; separator_row]
      ++ map (λ c, mssql_row c pk_cols fk_map) mcols
  ∧ length (text_lines (oracle_document table ocols pk_cols fk_map)) =
      (4 + length ocols + count_lf table
       + sum_list (count_lf <$> map (λ c, oracle_row c pk_cols fk_map) ocols))%nat
  ∧ length (text_lines (mssql_document table mcols pk_cols fk_map)) =
      (4 + length mcols + count_lf table
       + sum_list (count_lf <$> map (λ c, mssql_row c pk_cols fk_map) mcols))%nat
  ∧ (ch_lf ∉ table →
     Forall (λ s, ch_lf ∉ s) (map (λ c, oracle_row c pk_cols fk_map) ocols) →
     text_lines (oracle_document table ocols pk_cols fk_map) =
       [lit "## 表格名稱:" ++ table; []; header_row; separator_row]
         ++ map (λ c, oracle_row c pk_cols fk_map) ocols)
  ∧ (ch_lf ∉ table →
     Forall (λ s, ch_lf ∉ s) (map (λ c, mssql_row c pk_cols fk_map) mcols) →
     text_lines (mssql_document table mcols pk_cols fk_map) =
       [lit "## 表格名稱:" ++ table; []; header_row; separator_row]
         ++ map (λ c, mssql_row c pk_cols fk_map) mcols).
Proof.
  unfold oracle_document, mssql_document.
  rewrite oracle_lines_rows, mssql_lines_rows.
  rewrite !document_line_count, !length_map.
  repeat split; auto using document_lines.
Qed.

Lemma document_structure_witness :
  text_lines (oracle_document (lit "T") [ora_number_10_0] ∅ ∅) =
    [lit "## 表格名稱:T"; []; header_row; separator_row; oracle_row ora_number_10_0 ∅ ∅]
  ∧ text_lines (mssql_document (lit "T") [ms_varchar_255] ∅ ∅) =
    [lit "## 表格名稱:T"; []; header_row; separator_row; mssql_row ms_varchar_255 ∅ ∅].
Proof.
  destruct (document_structure (lit "T") [ora_number_10_0] [ms_varchar_255] ∅ ∅)
    as (_ & _ & _ & _ & Ho & Hm).
  split.
  - apply Ho.
    + apply count_lf_zero. vm_compute. reflexivity.
    + apply Forall_cons_2; [|apply Forall_nil_2].
      apply count_lf_zero. vm_compute. reflexivity.
  - apply Hm.
    + apply count_lf_zero. vm_compute. reflexivity.
    + apply Forall_cons_2; [|apply Forall_nil_2].
      apply count_lf_zero. vm_compute. reflexivity.
Defined.

(** C6 as worded fails for a column whose comment has two lines: the
    document of that one-column table has six lines, not five. *)
Lemma document_lines_not_n_plus_4 :
  length (text_lines (oracle_document (lit "T") [ora_two_line_comment] ∅ ∅))
    ≠ (1 + (length [ora_two_line_comment] + 3))%nat
  ∧ length (text_lines (mssql_document (lit "T") [ms_two_line_comment] ∅ ∅))
    ≠ (1 + (length [ms_two_line_comment] + 3))%nat.
Proof. split; vm_compute; discriminate. Qed.

(** ** The main flow *)

Lemma load_properties_total (text : pystr) :
  ∃ conf, load_properties (Ok text) = Ok conf.
Proof. eexists. simpl. apply load_lines_foldl. Qed.

Lemma main_configured (rt : Runtime) (h : Host) (text : pystr) (conf : gmap pystr pystr) :
  (2 ≤ length (argv h))%nat →
  files h (with_name (script_file h) (lit "tablemd.properties")) = Some (Ok text) →
  load_properties (Ok text) = Ok conf →
  main rt h world0 =
    (let db_type := py_lower rt (get_default conf (lit "DB_TYPE") []) in
     let output_base : Path := [get_default conf (lit "OUTPUT_BASE") (lit "output")] in
     if bool_decide (db_type = lit "oracle")
     then main_oracle rt h conf output_base (nth 1 (argv h) [])
     else if bool_decide (db_type = lit "sqlserver")
     then main_mssql rt h conf output_base (nth 1 (argv h) [])
     else print bad_db_type_message ≫= λ _, sys_exit 3) world0.
Proof.
  intros Hargs Hfile Hconf. unfold main.
  destruct (Nat.ltb_spec (length (argv h)) 2) as [?|_]; [lia|].
  rewrite Hfile, Hconf. reflexivity.
Qed.

(** C4.  Without an argument the run prints the usage line and exits
    with status 1; without the configuration file it prints the file not
    found line and exits with status 2; with a [DB_TYPE] that is neither
    [oracle] nor [sqlserver] it prints the supported types and exits
    with status 3.  When the enumeration query returns no table the run
    prints one line saying so, creates no directory, writes no file and
    ends with status 0, on both backends. *)
Theorem main_exit_statuses (rt : Runtime) (h : Host) :
  ((length (argv h) < 2)%nat →
   run rt h = (1%Z, {| stdout := [usage_message]; made_dirs := []; written := [] |}))
  ∧ ((2 ≤ length (argv h))%nat →
     files h (with_name (script_file h) (lit "tablemd.properties")) = None →
     run rt h =
       (2%Z, {| stdout :=
                  [no_config_message rt (with_name (script_file h) (lit "tablemd.properties"))];
                made_dirs := []; written := [] |}))
  ∧ (∀ text conf,
       (2 ≤ length (argv h))%nat →
       files h (with_name (script_file h) (lit "tablemd.properties")) = Some (Ok text) →
       load_properties (Ok text) = Ok conf →
       py_lower rt (get_default conf (lit "DB_TYPE") []) ≠ lit "oracle" →
       py_lower rt (get_default conf (lit "DB_TYPE") []) ≠ lit "sqlserver" →
       run rt h =
         (3%Z, {| stdout := [bad_db_type_message]; made_dirs := []; written := [] |}))
  ∧ (∀ text conf conn schema,
       (2 ≤ length (argv h))%nat →
       files h (with_name (script_file h) (lit "tablemd.properties")) = Some (Ok text) →
       load_properties (Ok text) = Ok conf →
       py_lower rt (get_default conf (lit "DB_TYPE") []) = lit "oracle" →
       oracle_connect rt (cx_Oracle h) conf = Ok conn →
       schema = match conf !! lit "ORA_SCHEMA" with
                | Some s => Some s
                | None => conf !! lit "ORA_USER"
                end →
       oracle_fetch_tables rt conn schema (nth 1 (argv h) []) = Ok [] →
       run rt h =
         (0%Z, {| stdout := [oracle_no_tables_message schema (nth 1 (argv h) [])];
                  made_dirs := []; written := [] |}))
  ∧ (∀ text conf conn db_id,
       (2 ≤ length (argv h))%nat →
       files h (with_name (script_file h) (lit "tablemd.properties")) = Some (Ok text) →
       load_properties (Ok text) = Ok conf →
       py_lower rt (get_default conf (lit "DB_TYPE") []) = lit "sqlserver" →
       mssql_connect rt (pyodbc h) conf = Ok conn →
       db_id = get_default conf (lit "MSSQL_DBNAME") (lit "MSSQL") →
       mssql_fetch_tables conn db_id (nth 1 (argv h) []) = [] →
       run rt h =
         (0%Z, {| stdout := [mssql_no_tables_message db_id (nth 1 (argv h) [])];
                  made_dirs := []; written := [] |})).
Proof.
  repeat split.
  - intros Hargs. unfold run, main.
    destruct (Nat.ltb_spec (length (argv h)) 2) as [_|?]; [reflexivity|lia].
  - intros Hargs Hfile. unfold run, main.
    destruct (Nat.ltb_spec (length (argv h)) 2) as [?|_]; [lia|].
    rewrite Hfile. reflexivity.
  - intros text conf Hargs Hfile Hconf Hora Hms. unfold run.
    rewrite (main_configured rt h text conf) by done. cbv zeta.
    rewrite !bool_decide_eq_false_2 by done. reflexivity.
  - intros text conf conn schema Hargs Hfile Hconf Hora Hconn -> Htables. unfold run.
    rewrite (main_configured rt h text conf) by done. cbv zeta.
    rewrite bool_decide_eq_true_2 by done.
    unfold main_oracle, get. cbv zeta. unfold mbind at 1, M_bind, lift.
    rewrite Hconn. unfold mbind at 1. rewrite Htables. reflexivity.
  - intros text conf conn db_id Hargs Hfile Hconf Hms Hconn -> Htables. unfold run.
    rewrite (main_configured rt h text conf) by done. cbv zeta.
    rewrite bool_decide_eq_false_2 by (rewrite Hms; by vm_compute).
    rewrite bool_decide_eq_true_2 by done.
    unfold main_mssql. cbv zeta. unfold mbind at 1, M_bind, lift.
    rewrite Hconn, Htables. reflexivity.
Qed.

Lemma main_exit_statuses_witness :
  run ascii_runtime (host_with [lit "tablemd.py"] None) =
    (1%Z, {| stdout := [usage_message]; made_dirs := []; written := [] |})
  ∧ run ascii_runtime (host_with [lit "tablemd.py"; lit "ABC%"] None) =
    (2%Z, {| stdout := [lit "找不到設定檔：C:/tools/tablemd.properties"];
             made_dirs := []; written := [] |})
  ∧ run ascii_runtime (host_with [lit "tablemd.py"; lit "ABC%"] (Some config_mysql)) =
    (3%Z, {| stdout := [bad_db_type_message]; made_dirs := []; written := [] |})
  ∧ run ascii_runtime (host_with [lit "tablemd.py"; lit "ABC%"] (Some config_oracle)) =
    (0%Z, {| stdout := [lit "[Oracle] 無符合的表（owner=scott, pattern=ABC%）"];
             made_dirs := []; written := [] |})
  ∧ run ascii_runtime (host_with [lit "tablemd.py"; lit "ABC%"] (Some config_sqlserver)) =
    (0%Z, {| stdout := [lit "[SQL Server] 無符合的表（db=sales, pattern=ABC%）"];
             made_dirs := []; written := [] |}).
Proof.
  split; [|split; [|split; [|split]]].
  - refine (proj1 (main_exit_statuses ascii_runtime (host_with [lit "tablemd.py"] None)) _).
    vm_compute. lia.
  - refine (proj1 (proj2
      (main_exit_statuses ascii_runtime (host_with [lit "tablemd.py"; lit "ABC%"] None))) _ _).
    + vm_compute. lia.
    + vm_compute. reflexivity.
  - refine (proj1 (proj2 (proj2
      (main_exit_statuses ascii_runtime
         (host_with [lit "tablemd.py"; lit "ABC%"] (Some config_mysql)))))
      config_mysql (loaded config_mysql) _ _ _ _ _).
    + vm_compute. lia.
    + vm_compute. reflexivity.
    + vm_compute. reflexivity.
    + vm_compute. discriminate.
    + vm_compute. discriminate.
  - refine (proj1 (proj2 (proj2 (proj2
      (main_exit_statuses ascii_runtime
         (host_with [lit "tablemd.py"; lit "ABC%"] (Some config_oracle))))))
      config_oracle (loaded config_oracle) empty_oracle (Some (lit "scott")) _ _ _ _ _ _ _).
    + vm_compute. lia.
    + vm_compute. reflexivity.
    + vm_compute. reflexivity.
    + vm_compute. reflexivity.
    + vm_compute. reflexivity.
    + vm_compute. reflexivity.
    + vm_compute. reflexivity.
  - refine (proj2 (proj2 (proj2 (proj2
      (main_exit_statuses ascii_runtime
         (host_with [lit "tablemd.py"; lit "ABC%"] (Some config_sqlserver))))))
      config_sqlserver (loaded config_sqlserver) empty_mssql (lit "sales") _ _ _ _ _ _ _).
    + vm_compute. lia.
    + vm_compute. reflexivity.
    + vm_compute. reflexivity.
    + vm_compute. reflexivity.
    + vm_compute. reflexivity.
    + vm_compute. reflexivity.
    + vm_compute. reflexivity.
Defined.

(** ** Runs on concrete inputs *)

Example splitlines_mixed :
  splitlines (lit "a" ++ [13; 10] ++ lit "b" ++ [10; 10] ++ lit "c" ++ [10]) =
    [lit "a"; lit "b"; []; lit "c"].
Proof. vm_compute. reflexivity. Qed.

Example strip_both_ends : strip ([9; 32] ++ lit "a b" ++ [32; 13; 10]) = lit "a b".
Proof. vm_compute. reflexivity. Qed.

Example split1_first_only : split1 ch_equals (lit "a=b=c") = [lit "a"; lit "b=c"].
Proof. vm_compute. reflexivity. Qed.

Example load_properties_sample :
  let conf := loaded (lit "# c" ++ [10] ++ lit " a = 1 " ++ [10; 10] ++ lit "b" ++ [10]
                        ++ lit "a=2=3" ++ [13; 10] ++ lit "  #x=1") in
  conf !! lit "a" = Some (lit "2=3") ∧ conf !! lit "b" = None ∧ conf !! lit "#x" = None
  ∧ size conf = 1%nat.
Proof. vm_compute. repeat split. Qed.

Example md_escape_sample :
  md_escape (Some (lit "a|b||")) = lit "a\|b\|\|" ∧ md_escape None = [].
Proof. vm_compute. split; reflexivity. Qed.

Example pipe_in_name_adds_a_column :
  column_pipes
    (mssql_row
       {| MsCol.column_name := lit "a|b"; MsCol.data_type := lit "int";
          MsCol.max_length := Some 4%Z; MsCol.precision := Some 10%Z;
          MsCol.scale := Some 0%Z; MsCol.is_nullable := false;
          MsCol.data_default := Some (lit "(1|2)"); MsCol.column_comment := None |}
       ∅ ∅) = 10%nat.
Proof. vm_compute. reflexivity. Qed.

Example fk_last_row_wins :
  fk_loop ∅ [(lit "C", lit "T1", lit "ID"); (lit "D", lit "T3", lit "ID");
             (lit "C", lit "T2", lit "KEY")] !! lit "C" = Some (lit "T2.KEY").
Proof. vm_compute. reflexivity. Qed.

Example run_one_table :
  run ascii_runtime
      (host_on [lit "tablemd.py"; lit "emp"] (Some config_oracle) emp_oracle empty_mssql) =
    (0%Z,
     {| stdout := [lit "[Oracle] 已產出：output/scott/TABLE_EMP.md"];
        made_dirs := [[lit "output"; lit "scott"]];
        written :=
          [([lit "output"; lit "scott"; lit "TABLE_EMP.md"],
            lit "## 表格名稱:EMP" ++ [ch_lf; ch_lf] ++ header_row ++ [ch_lf]
              ++ separator_row ++ [ch_lf]
              ++ lit "| QTY | NUMBER | 10,0 | N |  | Y | FK → `STOCK.ID` |  |")] |}).
Proof. vm_compute. reflexivity. Qed.

(** * Further properties *)

(** ** The configuration loader: what the mapping can hold *)

Lemma strip_elem_of (c : N) (s : pystr) : c ∈ strip s → c ∈ s.
Proof.
  intros Hc. destruct (strip_spec s) as (l & r & Hs & _).
  rewrite Hs, !elem_of_app. auto.
Qed.

Lemma lstrip_head_nonspace (s : pystr) :
  (∀ c, head s = Some c → is_space c = false) → lstrip s = s.
Proof.
  destruct s as [|c s]; [done|]. intros H. simpl. by rewrite (H c).
Qed.

Lemma strip_idemp (s : pystr) : strip (strip s) = strip s.
Proof.
  destruct (strip_spec s) as (_ & _ & _ & _ & _ & Hh & Hl).
  unfold strip at 1, rstrip. rewrite (lstrip_head_nonspace (strip s)) by done.
  rewrite lstrip_head_nonspace; [apply reverse_involutive|].
  intros c. rewrite head_reverse. apply Hl.
Qed.

Lemma strip_head_nonspace (c : N) (s : pystr) :
  is_space c = false → head (strip (c :: s)) = Some c.
Proof.
  intros Hc. destruct (strip_spec (c :: s)) as (l & r & Hs & Hl & Hr & _ & _).
  destruct l as [|x l].
  - destruct (strip (c :: s)) as [|y t].
    + simpl in Hs. subst r. simpl in Hr. by rewrite Hc in Hr.
    + simpl in Hs. by simplify_eq.
  - simpl in Hs, Hl. simplify_eq. by rewrite Hc in Hl.
Qed.

Lemma first_index_take (c : N) (s : pystr) (i : nat) :
  first_index c s = Some i → c ∉ take i s.
Proof.
  unfold first_index. intros H. apply fmap_Some in H as ([j y] & Hf & ->).
  apply list_find_Some in Hf as (_ & _ & Hbefore). simpl.
  intros Hin. apply list_elem_of_lookup in Hin as [k Hk].
  apply lookup_take_Some in Hk as [Hk Hlt]. by eapply Hbefore.
Qed.

Lemma line_entry_shape (line k v : pystr) :
  line_entry line = Some (k, v) →
  strip k = k ∧ strip v = v ∧ (ch_equals ∉ k) ∧ (head k ≠ Some ch_hash).
Proof.
  unfold line_entry. case_decide as Hd; [done|].
  destruct (first_index ch_equals (strip line)) as [i|] eqn:Hi; [|done].
  intros [= <- <-]. split; [apply strip_idemp|]. split; [apply strip_idemp|]. split.
  - intros Hin%strip_elem_of. by eapply first_index_take.
  - destruct (strip_spec line) as (_ & _ & _ & _ & _ & Hh & _).
    destruct (strip line) as [|c t] eqn:Ht; [by destruct Hd; left|].
    destruct i as [|i]; [done|]. cbn [take].
    rewrite strip_head_nonspace by (by apply Hh).
    intros [= ->]. apply Hd. by right.
Qed.

Lemma last_assigned_elem_of {V} (k : pystr) (v : V) (kvs : list (pystr * V)) :
  last_assigned k kvs = Some v → (k, v) ∈ kvs.
Proof.
  unfold last_assigned. intros H%last_Some_elem_of.
  apply list_elem_of_omap in H as ([k' v'] & Hin & Hkv).
  simpl in Hkv. case_decide; by simplify_eq.
Qed.

Lemma load_lines_lookup_line (lines : list pystr) (conf : gmap pystr pystr) (k v : pystr) :
  load_lines ∅ lines = Ok conf → conf !! k = Some v →
  ∃ line, line ∈ lines ∧ line_entry line = Some (k, v).
Proof.
  rewrite load_lines_foldl. intros [= <-]. rewrite foldl_insert_lookup, lookup_empty.
  destruct (last_assigned k _) as [v'|] eqn:Hl; [|done]. intros [= ->].
  apply last_assigned_elem_of in Hl. apply list_elem_of_omap in Hl as (line & ? & ?).
  by exists line.
Qed.

(** X1.  Whatever the text, every key and every value of the loaded
    mapping is trimmed, no key holds an [=], and no key begins with [#]. *)
Theorem load_properties_entries_shape (text : pystr) (conf : gmap pystr pystr) (k v : pystr) :
  load_properties (Ok text) = Ok conf → conf !! k = Some v →
  strip k = k ∧ strip v = v ∧ (ch_equals ∉ k) ∧ (head k ≠ Some ch_hash).
Proof.
  intros Hload Hk. simpl in Hload.
  destruct (load_lines_lookup_line _ _ _ _ Hload Hk) as (line & _ & Hline).
  by eapply line_entry_shape.
Qed.

Lemma load_properties_entries_shape_witness :
  strip (lit "DB_TYPE") = lit "DB_TYPE" ∧ strip (lit "Oracle") = lit "Oracle"
  ∧ (ch_equals ∉ lit "DB_TYPE") ∧ (head (lit "DB_TYPE") ≠ Some ch_hash).
Proof.
  refine (load_properties_entries_shape config_oracle (loaded config_oracle)
            (lit "DB_TYPE") (lit "Oracle") _ _).
  - vm_compute. reflexivity.
  - vm_compute. reflexivity.
Defined.

(** ** The configuration loader: one text after another *)

Lemma splitlines_from_app_lf (t2 : pystr) (n : nat) :
  ∀ (t1 cur : pystr), (length t1 ≤ n)%nat →
    ∃ extra, (extra = [] ∨ extra = [[]])
      ∧ splitlines_from cur (t1 ++ ch_lf :: t2) =
          splitlines_from cur t1 ++ extra ++ splitlines_from [] t2.
Proof.
  induction n as [|n IH]; intros t1 cur Hn.
  - destruct t1; [|simpl in Hn; lia]. cbn [app splitlines_from].
    change (is_linebreak ch_lf) with true. cbv iota.
    assert (Hnext : match t2 with
                    | c' :: s'' =>
                      if (ch_lf =? 13) && (c' =? 10) then splitlines_from [] s''
                      else splitlines_from [] t2
                    | [] => splitlines_from [] t2
                    end = splitlines_from [] t2) by (by destruct t2).
    rewrite Hnext. destruct cur as [|x cur].
    + exists [[]]. split; [by right|done].
    + exists []. split; [by left|done].
  - destruct t1 as [|c t1].
    { apply (IH [] cur). simpl. lia. }
    cbn [app splitlines_from]. destruct (is_linebreak c) eqn:Hc.
    + destruct t1 as [|c' t1].
      * cbn [app]. destruct (N.eqb_spec c 13) as [->|Hne].
        -- exists []. split; [by left|]. done.
        -- exists [[]]. split; [by right|].
           change ((c =? 13) && (ch_lf =? 10)) with ((c =? 13) && true).
           destruct (N.eqb_spec c 13); [done|]. cbn [andb].
           change (splitlines_from [] (ch_lf :: t2)) with ([] :: match t2 with
             | c' :: s'' =>
               if (ch_lf =? 13) && (c' =? 10) then splitlines_from [] s''
               else splitlines_from [] t2
             | [] => splitlines_from [] t2
             end).
           by destruct t2.
      * cbn [app]. destruct ((c =? 13) && (c' =? 10)).
        -- destruct (IH t1 [] ltac:(simpl in Hn; lia)) as (extra & He & ->).
           exists extra. split; [done|]. done.
        -- destruct (IH (c' :: t1) [] ltac:(simpl in Hn |- *; lia)) as (extra & He & Heq).
           exists extra. split; [done|]. cbn [app] in Heq. by rewrite Heq.
    + destruct (IH t1 (c :: cur) ltac:(simpl in Hn; lia)) as (extra & He & ->).
      by exists extra.
Qed.

Lemma line_entry_empty : line_entry [] = None.
Proof. reflexivity. Qed.

Lemma entries_app_lf (t1 t2 : pystr) :
  omap line_entry (splitlines (t1 ++ ch_lf :: t2)) =
    omap line_entry (splitlines t1) ++ omap line_entry (splitlines t2).
Proof.
  unfold splitlines.
  destruct (splitlines_from_app_lf t2 (length t1) t1 [] ltac:(done)) as (extra & He & ->).
  rewrite !omap_app. by destruct He as [-> | ->].
Qed.

Lemma foldl_insert_app_lookup {V} (k : pystr) (kvs1 kvs2 : list (pystr * V)) :
  foldl (λ (m : gmap pystr V) kv, <[kv.1 := kv.2]> m) ∅ (kvs1 ++ kvs2) !! k =
    (foldl (λ (m : gmap pystr V) kv, <[kv.1 := kv.2]> m) ∅ kvs2
       ∪ foldl (λ (m : gmap pystr V) kv, <[kv.1 := kv.2]> m) ∅ kvs1) !! k.
Proof.
  rewrite foldl_app, lookup_union, !foldl_insert_lookup, ?foldl_insert_lookup, !lookup_empty.
  destruct (last_assigned k kvs2), (last_assigned k kvs1); done.
Qed.

(** X2.  Loading one text, a line feed and a second text gives the
    entries of the second text over those of the first: a key of the
    second text has its value there, any other key keeps the value of
    the first text. *)
Theorem load_properties_concat (t1 t2 : pystr) :
  ∃ c1 c2 : gmap pystr pystr,
    load_properties (Ok t1) = Ok c1 ∧ load_properties (Ok t2) = Ok c2
    ∧ load_properties (Ok (t1 ++ ch_lf :: t2)) = Ok (c2 ∪ c1).
Proof.
  do 2 eexists. split; [apply load_lines_foldl|]. split; [apply load_lines_foldl|].
  simpl. rewrite load_lines_foldl. f_equal. apply map_eq. intros k.
  rewrite entries_app_lf. apply foldl_insert_app_lookup.
Qed.

(** ** Connections *)

(** X3.  With the client library present and a port that parses, the
    Oracle connection goes to the driver with the configured user and
    password and a DSN that names either the service or the SID, never
    both: the trimmed [ORA_SERVICE] when it is not blank, else the
    trimmed [ORA_SID]. *)
Theorem oracle_connect_service_over_sid (rt : Runtime) (drv : OracleDriver)
    (conf : gmap pystr pystr) (port_n : Z) :
  py_int rt (get_default conf (lit "ORA_PORT") (lit "1521")) = Some port_n →
  ∃ dsn,
    oracle_connect rt (Some drv) conf =
      cx_connect drv (conf !! lit "ORA_USER") (conf !! lit "ORA_PWD") dsn
    ∧ dsn_host dsn = conf !! lit "ORA_HOST" ∧ dsn_port dsn = port_n
    ∧ (strip (get_default conf (lit "ORA_SERVICE") []) ≠ [] →
       dsn_service_name dsn = Some (strip (get_default conf (lit "ORA_SERVICE") []))
       ∧ dsn_sid dsn = None)
    ∧ (strip (get_default conf (lit "ORA_SERVICE") []) = [] →
       dsn_service_name dsn = None
       ∧ dsn_sid dsn = Some (strip (get_default conf (lit "ORA_SID") []))).
Proof.
  intros Hport. unfold oracle_connect, get. rewrite Hport.
  destruct (strip (get_default conf (lit "ORA_SERVICE") [])) as [|c s] eqn:Hs;
    cbn [truthy]; eexists; (split; [reflexivity|]); cbn; repeat split; try done.
Qed.

Lemma get_default_insert_ne (conf : gmap pystr pystr) (k k' v d : pystr) :
  k ≠ k' → get_default (<[k := v]> conf) k' d = get_default conf k' d.
Proof. intros Hne. unfold get_default. by rewrite lookup_insert_ne. Qed.

Lemma get_insert_ne (conf : gmap pystr pystr) (k k' v : pystr) :
  k ≠ k' → get (<[k := v]> conf) k' = get conf k'.
Proof. intros Hne. unfold get. by rewrite lookup_insert_ne. Qed.

(** X4.  With a trusted connection the SQL Server connection string
    holds neither user nor password: changing [MSSQL_USER] and
    [MSSQL_PWD] in the configuration changes nothing of what is passed
    to the driver. *)
Theorem mssql_trusted_omits_credentials (rt : Runtime) (pyodbc : option OdbcDriver)
    (conf : gmap pystr pystr) (user pwd : pystr) :
  py_lower rt (strip (get_default conf (lit "MSSQL_TRUSTED_CONNECTION") (lit "no")))
    ∈ [lit "1"; lit "y"; lit "yes"; lit "true"] →
  mssql_connect rt pyodbc (<[lit "MSSQL_USER" := user]> (<[lit "MSSQL_PWD" := pwd]> conf)) =
    mssql_connect rt pyodbc conf.
Proof.
  intros Htrusted. unfold mssql_connect. destruct pyodbc as [drv|]; [|done].
  rewrite !get_default_insert_ne, !get_insert_ne by (by vm_compute).
  rewrite bool_decide_eq_true_2 by done. reflexivity.
Qed.

Lemma oracle_connect_service_over_sid_witness :
  ∃ dsn,
    oracle_connect ascii_runtime (Some empty_oracle_driver) (loaded config_oracle_service) =
      cx_connect empty_oracle_driver (loaded config_oracle_service !! lit "ORA_USER")
        (loaded config_oracle_service !! lit "ORA_PWD") dsn
    ∧ dsn_host dsn = loaded config_oracle_service !! lit "ORA_HOST" ∧ dsn_port dsn = 1521%Z
    ∧ (strip (get_default (loaded config_oracle_service) (lit "ORA_SERVICE") []) ≠ [] →
       dsn_service_name dsn
         = Some (strip (get_default (loaded config_oracle_service) (lit "ORA_SERVICE") []))
       ∧ dsn_sid dsn = None)
    ∧ (strip (get_default (loaded config_oracle_service) (lit "ORA_SERVICE") []) = [] →
       dsn_service_name dsn = None
       ∧ dsn_sid dsn
         = Some (strip (get_default (loaded config_oracle_service) (lit "ORA_SID") []))).
Proof.
  refine (oracle_connect_service_over_sid ascii_runtime empty_oracle_driver
            (loaded config_oracle_service) 1521%Z _).
  vm_compute. reflexivity.
Defined.

Lemma mssql_trusted_omits_credentials_witness :
  mssql_connect ascii_runtime (Some {| odbc_connect := λ dsn, Raise (RuntimeError dsn) |})
      (<[lit "MSSQL_USER" := lit "sa"]>
         (<[lit "MSSQL_PWD" := lit "secret"]> (loaded config_sqlserver_trusted))) =
    mssql_connect ascii_runtime (Some {| odbc_connect := λ dsn, Raise (RuntimeError dsn) |})
      (loaded config_sqlserver_trusted).
Proof.
  refine (mssql_trusted_omits_credentials ascii_runtime _ (loaded config_sqlserver_trusted)
            (lit "sa") (lit "secret") _).
  apply (bool_decide_unpack _). vm_compute. exact I.
Defined.

(** ** The table enumerator: what it returns *)

Lemma elem_of_select (A : Type) (f : A → pystr) (p : A → bool) (rows : list A) (t : pystr) :
  t ∈ map f (List.filter p rows) ↔ ∃ r, r ∈ rows ∧ p r = true ∧ f r = t.
Proof.
  change (map f (List.filter p rows)) with (f <$> List.filter p rows).
  rewrite list_elem_of_fmap. split.
  - intros (r & -> & Hr). apply list_elem_of_In, List.filter_In in Hr as [Hr Hp].
    exists r. by rewrite list_elem_of_In.
  - intros (r & Hr & Hp & <-). exists r. split; [done|].
    apply list_elem_of_In, List.filter_In. by rewrite <- list_elem_of_In.
Qed.

(** X5.  When [ORDER BY] only reorders, the Oracle enumerator returns
    exactly the names of the tables whose owner is the upper-cased
    schema and whose upper-cased name matches the upper-cased pattern
    ([LIKE] for a pattern with a wildcard, equality otherwise); the SQL
    Server enumerator returns exactly the matching tables that are not
    shipped with the server. *)
Theorem fetch_tables_exactly_matching (rt : Runtime) (oconn : OracleConn) (mconn : MssqlConn)
    (schema dbname pat : pystr) (tables : list pystr) (t : pystr) :
  (∀ l, ORDER_BY (ora_engine oconn) l ≡ₚ l) →
  (∀ l, ORDER_BY (ms_engine mconn) l ≡ₚ l) →
  oracle_fetch_tables rt oconn (Some schema) pat = Ok tables →
  (t ∈ tables ↔
     ∃ owner, (owner, t) ∈ all_tables oconn
       ∧ EQ (ora_engine oconn) owner (py_upper rt schema) = true
       ∧ (if is_like_pattern pat
          then LIKE (ora_engine oconn) (UPPER (ora_engine oconn) t)
                 (UPPER (ora_engine oconn) pat)
          else EQ (ora_engine oconn) (UPPER (ora_engine oconn) t)
                 (UPPER (ora_engine oconn) pat)) = true)
  ∧ (t ∈ mssql_fetch_tables mconn dbname pat ↔
       (t, false) ∈ sys_tables mconn
       ∧ (if is_like_pattern pat
          then LIKE (ms_engine mconn) (UPPER (ms_engine mconn) t)
                 (UPPER (ms_engine mconn) pat)
          else EQ (ms_engine mconn) (UPPER (ms_engine mconn) t)
                 (UPPER (ms_engine mconn) pat)) = true).
Proof.
  intros Hora Hms Hfetch. split.
  - unfold oracle_fetch_tables in Hfetch. simpl in Hfetch.
    assert (tables = oracle_select_tables oconn
              (if is_like_pattern pat
               then oracle_where_like (ora_engine oconn) (py_upper rt schema) pat
               else oracle_where_eq (ora_engine oconn) (py_upper rt schema) pat)) as ->.
    { destruct (is_like_pattern pat); by simplify_eq. }
    unfold oracle_select_tables. rewrite Hora, elem_of_select. split.
    + intros ([owner name] & Hin & Hp & Hname). simpl in Hname. subst name.
      exists owner. split; [done|].
      destruct (is_like_pattern pat); unfold oracle_where_like, oracle_where_eq in Hp;
        simpl in Hp; apply andb_true_iff in Hp as [? ?]; done.
    + intros (owner & Hin & Hown & Hmatch). exists (owner, t). split; [done|].
      split; [|done].
      destruct (is_like_pattern pat); unfold oracle_where_like, oracle_where_eq;
        simpl; by rewrite Hown, Hmatch.
  - unfold mssql_fetch_tables. rewrite Hms, elem_of_select. split.
    + intros ([name shipped] & Hin & Hp & Hname). simpl in Hname. subst name.
      unfold mssql_where in Hp. simpl in Hp.
      apply andb_true_iff in Hp as [Hs Hp]. apply negb_true_iff in Hs. subst shipped.
      split; [done|]. destruct (is_like_pattern pat); simpl in Hp.
      * by rewrite orb_false_r in Hp.
      * done.
    + intros [Hin Hmatch]. exists (t, false). split; [done|]. split; [|done].
      unfold mssql_where. simpl. destruct (is_like_pattern pat); simpl.
      * by rewrite orb_false_r.
      * done.
Qed.

(** X6.  Both enumerators compare upper-cased names: two patterns that
    are both wildcard patterns or both plain names and that agree once
    upper-cased by the engine select the same tables. *)
Theorem fetch_tables_pattern_case (rt : Runtime) (oconn : OracleConn) (mconn : MssqlConn)
    (schema : option pystr) (dbname pat pat' : pystr) :
  is_like_pattern pat = is_like_pattern pat' →
  UPPER (ora_engine oconn) pat = UPPER (ora_engine oconn) pat' →
  UPPER (ms_engine mconn) pat = UPPER (ms_engine mconn) pat' →
  oracle_fetch_tables rt oconn schema pat = oracle_fetch_tables rt oconn schema pat'
  ∧ mssql_fetch_tables mconn dbname pat = mssql_fetch_tables mconn dbname pat'.
Proof.
  intros Hlike Hora Hms. split.
  - unfold oracle_fetch_tables. destruct schema as [schema|]; [|done]. simpl.
    rewrite <- Hlike. unfold oracle_where_like, oracle_where_eq. by rewrite Hora.
  - unfold mssql_fetch_tables. rewrite <- Hlike. unfold mssql_where. by rewrite Hms.
Qed.

Lemma fetch_tables_exactly_matching_witness :
  (lit "EMP" ∈ [lit "EMP"] ↔
     ∃ owner, (owner, lit "EMP") ∈ all_tables emp_oracle
       ∧ EQ (ora_engine emp_oracle) owner (py_upper ascii_runtime (lit "scott")) = true
       ∧ (if is_like_pattern (lit "emp")
          then LIKE (ora_engine emp_oracle) (UPPER (ora_engine emp_oracle) (lit "EMP"))
                 (UPPER (ora_engine emp_oracle) (lit "emp"))
          else EQ (ora_engine emp_oracle) (UPPER (ora_engine emp_oracle) (lit "EMP"))
                 (UPPER (ora_engine emp_oracle) (lit "emp"))) = true)
  ∧ (lit "EMP" ∈ mssql_fetch_tables sales_mssql (lit "sales") (lit "emp") ↔
       (lit "EMP", false) ∈ sys_tables sales_mssql
       ∧ (if is_like_pattern (lit "emp")
          then LIKE (ms_engine sales_mssql) (UPPER (ms_engine sales_mssql) (lit "EMP"))
                 (UPPER (ms_engine sales_mssql) (lit "emp"))
          else EQ (ms_engine sales_mssql) (UPPER (ms_engine sales_mssql) (lit "EMP"))
                 (UPPER (ms_engine sales_mssql) (lit "emp"))) = true).
Proof.
  refine (fetch_tables_exactly_matching ascii_runtime emp_oracle sales_mssql
            (lit "scott") (lit "sales") (lit "emp") [lit "EMP"] (lit "EMP") _ _ _).
  - intros l. reflexivity.
  - intros l. reflexivity.
  - vm_compute. reflexivity.
Defined.

Lemma fetch_tables_pattern_case_witness :
  oracle_fetch_tables ascii_runtime emp_oracle (Some (lit "scott")) (lit "emp") =
    oracle_fetch_tables ascii_runtime emp_oracle (Some (lit "scott")) (lit "Emp")
  ∧ mssql_fetch_tables sales_mssql (lit "sales") (lit "emp") =
    mssql_fetch_tables sales_mssql (lit "sales") (lit "Emp").
Proof.
  refine (fetch_tables_pattern_case ascii_runtime emp_oracle sales_mssql
            (Some (lit "scott")) (lit "sales") (lit "emp") (lit "Emp") _ _ _).
  - vm_compute. reflexivity.
  - vm_compute. reflexivity.
  - vm_compute. reflexivity.
Defined.

(** ** The collectors: keys of what they return *)

Lemma fk_loop_dom (rows : list (pystr * pystr * pystr)) (m : gmap pystr pystr) :
  dom (fk_loop m rows) = dom m ∪ list_to_set (map (λ r : pystr * pystr * pystr, r.1.1) rows).
Proof.
  revert m. induction rows as [|[[col rtbl] rcol] rows IH]; intros m; simpl.
  - by rewrite (right_id_L ∅ (∪)).
  - rewrite IH, dom_insert_L. apply set_eq. intros x.
    rewrite !elem_of_union. tauto.
Qed.

Lemma fk_loop_is_Some (rows : list (pystr * pystr * pystr)) (name : pystr) :
  is_Some (fk_loop ∅ rows !! name) ↔
    name ∈ map (λ r : pystr * pystr * pystr, r.1.1) rows.
Proof.
  rewrite <- elem_of_dom, fk_loop_dom, dom_empty_L, elem_of_union, elem_of_list_to_set.
  split; [intros [H|H]; [by apply elem_of_empty in H|done] | auto].
Qed.

(** X7.  What a collector returns follows the three result sets: the
    columns are the rows of the column query in their order, a name is
    in the primary-key set exactly when a row of the primary-key query
    holds it, and a column has a foreign-key entry exactly when a row of
    the foreign-key query names it. *)
Theorem collect_meta_keys (rt : Runtime) (oconn : OracleConn) (mconn : MssqlConn)
    (schema table name : pystr) :
  (∃ pk_cols fk_map,
      oracle_collect_meta rt oconn (Some schema) table =
        Ok (ora_cols_sql oconn (py_upper rt schema) (py_upper rt table), pk_cols, fk_map)
      ∧ (name ∈ pk_cols ↔ name ∈ ora_pk_sql oconn (py_upper rt schema) (py_upper rt table))
      ∧ (is_Some (fk_map !! name) ↔
           name ∈ map (λ r : pystr * pystr * pystr, r.1.1)
                    (ora_fk_sql oconn (py_upper rt schema) (py_upper rt table))))
  ∧ (mssql_collect_meta mconn table).1.1 = ms_cols_sql mconn table
  ∧ (name ∈ (mssql_collect_meta mconn table).1.2 ↔ name ∈ ms_pk_sql mconn table)
  ∧ (is_Some ((mssql_collect_meta mconn table).2 !! name) ↔
       name ∈ map (λ r : pystr * pystr * pystr, r.1.1) (ms_fk_sql mconn table)).
Proof.
  split; [|split; [|split]].
  - do 2 eexists. split; [reflexivity|]. split.
    + apply elem_of_list_to_set.
    + apply fk_loop_is_Some.
  - reflexivity.
  - apply elem_of_list_to_set.
  - apply fk_loop_is_Some.
Qed.

(** ** The comment cell *)

Lemma or_empty_default (x : option pystr) : or_empty x = default [] x.
Proof. destruct x as [[|c s]|]; done. Qed.

(** X8.  The Comment cell is the comment with each [|] escaped and
    nothing else changed: unlike the default it is not trimmed, reading
    the escapes back gives the comment itself (the empty text when there
    is none), and the cell never adds a column pipe. *)
Theorem comment_cell_escaped (oc : OraCol.t) (mc : MsCol.t) :
  unescape_pipes (oracle_comment oc) = default [] (OraCol.column_comment oc)
  ∧ unescape_pipes (mssql_comment mc) = default [] (MsCol.column_comment mc)
  ∧ column_pipes (oracle_comment oc) = 0%nat
  ∧ column_pipes (mssql_comment mc) = 0%nat
  ∧ length (oracle_comment oc) =
      (length (default [] (OraCol.column_comment oc))
       + length (List.filter (N.eqb ch_pipe) (default [] (OraCol.column_comment oc))))%nat.
Proof.
  unfold oracle_comment, mssql_comment, md_escape. rewrite !or_empty_some, !or_empty_default.
  repeat split; try apply unescape_replace; try apply column_pipes_replace.
  induction (default [] (OraCol.column_comment oc)) as [|c s IH]; [done|].
  cbn [replace List.filter]. rewrite (N.eqb_sym ch_pipe c).
  destruct (c =? ch_pipe); cbn [length app]; rewrite IH; lia.
Qed.

(** ** Line feeds in a data row *)

Lemma count_lf_replace (s : pystr) :
  count_lf (replace ch_pipe [ch_backslash; ch_pipe] s) = count_lf s.
Proof.
  unfold count_lf. induction s as [|c s IH]; [done|].
  cbn [replace]. destruct (N.eqb_spec c ch_pipe) as [->|Hc].
  - cbn [app List.filter]. change (ch_lf =? ch_backslash) with false.
    change (ch_lf =? ch_pipe) with false. done.
  - cbn [List.filter]. destruct (ch_lf =? c); cbn [length]; by rewrite IH.
Qed.

Lemma digits_no_lf (u : Decimal.uint) : ch_lf ∉ digits u.
Proof.
  induction u; simpl; [apply not_elem_of_nil|..];
    apply not_elem_of_cons; (split; [done|assumption]).
Qed.

Lemma count_lf_str_int (z : Z) : count_lf (str_int z) = 0%nat.
Proof.
  apply count_lf_zero. unfold str_int. destruct (Z.to_int z); [apply digits_no_lf|].
  apply not_elem_of_cons. split; [done | apply digits_no_lf].
Qed.

Lemma count_lf_oracle_lens (c : OraCol.t) : count_lf (oracle_lens c) = 0%nat.
Proof.
  unfold oracle_lens.
  destruct (OraCol.data_precision c), (OraCol.data_scale c), (OraCol.data_length c);
    rewrite ?count_lf_app, ?count_lf_str_int; done.
Qed.

Lemma count_lf_mssql_lens (c : MsCol.t) : count_lf (mssql_lens c) = 0%nat.
Proof.
  unfold mssql_lens.
  destruct (truthy_num _), (MsCol.precision c) as [p|], (MsCol.scale c), (MsCol.max_length c);
    try destruct (negb _); rewrite ?count_lf_app, ?count_lf_str_int; done.
Qed.

Lemma count_lf_fk_cell_of (t : pystr) : count_lf (fk_cell_of t) = count_lf t.
Proof.
  unfold fk_cell_of. destruct t as [|c t]; [done|]. cbn [truthy].
  rewrite !count_lf_app.
  replace (count_lf (lit "FK → `")) with 0%nat by (by vm_compute).
  replace (count_lf (lit "`")) with 0%nat by (by vm_compute). lia.
Qed.

Lemma count_lf_format_row (name dtype lens nullable default_ is_pk fk_cell comment : pystr) :
  count_lf (format_row name dtype lens nullable default_ is_pk fk_cell comment) =
    (count_lf name + count_lf dtype + count_lf lens + count_lf nullable + count_lf default_
     + count_lf is_pk + count_lf fk_cell + count_lf comment)%nat.
Proof.
  unfold format_row. rewrite !count_lf_app.
  replace (count_lf (lit "| ")) with 0%nat by (by vm_compute).
  replace (count_lf (lit " | ")) with 0%nat by (by vm_compute).
  replace (count_lf (lit " |")) with 0%nat by (by vm_compute). lia.
Qed.

(** X9.  A data row holds exactly the line feeds of the column name, of
    the data type, of the trimmed default, of the foreign-key target and
    of the comment: the other cells hold none, and line feeds at the
    ends of the default are trimmed away. *)
Theorem row_line_feeds (oc : OraCol.t) (mc : MsCol.t)
    (pk_cols : gset pystr) (fk_map : gmap pystr pystr) :
  count_lf (oracle_row oc pk_cols fk_map) =
    (count_lf (OraCol.column_name oc) + count_lf (OraCol.data_type oc)
     + count_lf (strip (default [] (OraCol.data_default oc)))
     + count_lf (get_default fk_map (OraCol.column_name oc) [])
     + count_lf (default [] (OraCol.column_comment oc)))%nat
  ∧ count_lf (mssql_row mc pk_cols fk_map) =
    (count_lf (MsCol.column_name mc) + count_lf (MsCol.data_type mc)
     + count_lf (strip (default [] (MsCol.data_default mc)))
     + count_lf (get_default fk_map (MsCol.column_name mc) [])
     + count_lf (default [] (MsCol.column_comment mc)))%nat.
Proof.
  unfold oracle_row, mssql_row. rewrite !count_lf_format_row.
  rewrite count_lf_oracle_lens, count_lf_mssql_lens.
  unfold oracle_default, oracle_comment, oracle_fk_cell, oracle_fk_to,
    mssql_default, mssql_comment, mssql_fk_cell, mssql_fk_to, md_escape.
  rewrite !or_empty_some, !count_lf_replace, !count_lf_fk_cell_of, !or_empty_default.
  assert (count_lf (oracle_nullable oc) = 0%nat) as ->.
  { unfold oracle_nullable. by destruct (bool_decide _). }
  assert (count_lf (oracle_is_pk oc pk_cols) = 0%nat) as ->.
  { unfold oracle_is_pk. by destruct (bool_decide _). }
  assert (count_lf (mssql_nullable mc) = 0%nat) as ->.
  { unfold mssql_nullable. by destruct (MsCol.is_nullable mc). }
  assert (count_lf (mssql_is_pk mc pk_cols) = 0%nat) as ->.
  { unfold mssql_is_pk. by destruct (bool_decide _). }
  lia.
Qed.

(** ** Reading a data row back *)

Lemma split_cells_from_cell (b : bool) (cur cell rest : pystr) :
  column_pipes_from b cell = 0%nat →
  split_cells_from b cur (cell ++ 32 :: 124 :: rest) =
    (reverse cur ++ cell ++ [32]) :: split_cells_from false [] rest.
Proof.
  revert b cur. induction cell as [|c s IH]; intros b cur Hz.
  - change (split_cells_from b cur ([] ++ 32 :: 124 :: rest))
      with (reverse (32 :: cur) :: split_cells_from false [] rest).
    by rewrite reverse_cons.
  - cbn [app split_cells_from]. cbn [column_pipes_from] in Hz.
    destruct ((c =? ch_pipe) && negb b); [done|].
    rewrite IH by done. by rewrite reverse_cons, <- app_assoc.
Qed.

Lemma split_cells_padded (cell rest : pystr) :
  column_pipes cell = 0%nat →
  split_cells_from false [] (32 :: cell ++ 32 :: 124 :: rest) =
    padded cell :: split_cells_from false [] rest.
Proof.
  intros Hz. apply (split_cells_from_cell false [] (32 :: cell) rest Hz).
Qed.

Lemma split_cells_format_row
    (name dtype lens nullable default_ is_pk fk_cell comment : pystr) :
  Forall (λ cell, column_pipes cell = 0%nat)
    [name; dtype; lens; nullable; default_; is_pk; fk_cell; comment] →
  split_cells (format_row name dtype lens nullable default_ is_pk fk_cell comment) =
    [] :: map padded [name; dtype; lens; nullable; default_; is_pk; fk_cell; comment] ++ [[]].
Proof.
  intros Hall. rewrite format_row_cells. unfold split_cells.
  change (split_cells_from false [] (124 :: ?s)) with ([] :: split_cells_from false [] s).
  repeat (apply Forall_cons in Hall as [? Hall]).
  change (comment ++ [32; 124]) with (comment ++ 32 :: 124 :: []).
  rewrite !split_cells_padded by done. reflexivity.
Qed.

Lemma unescape_pipes_cons (c c' : N) (s : pystr) :
  unescape_pipes (c :: c' :: s) =
    if (c =? ch_backslash) && (c' =? ch_pipe) then ch_pipe :: unescape_pipes s
    else c :: unescape_pipes (c' :: s).
Proof. reflexivity. Qed.

Lemma unescape_no_pipe (s : pystr) : ch_pipe ∉ s → unescape_pipes s = s.
Proof.
  induction s as [|c s IH]; [done|]. intros [Hc Hs]%not_elem_of_cons.
  specialize (IH Hs). destruct s as [|c' s]; [done|].
  apply not_elem_of_cons in Hs as [Hc' _]. rewrite unescape_pipes_cons.
  destruct (N.eqb_spec c' ch_pipe); [congruence|]. rewrite andb_false_r.
  by rewrite IH.
Qed.

Lemma replace_head_not_pipe (s t : pystr) (c : N) (r : pystr) :
  replace ch_pipe [ch_backslash; ch_pipe] s ++ 32 :: t = c :: r → c ≠ ch_pipe.
Proof.
  destruct s as [|x s]; cbn [replace app].
  - by intros [= <- _].
  - destruct (N.eqb_spec x ch_pipe) as [->|Hx]; cbn [app]; by intros [= <- _].
Qed.

Lemma unescape_replace_space (s : pystr) :
  unescape_pipes (replace ch_pipe [ch_backslash; ch_pipe] s ++ [32]) = s ++ [32].
Proof.
  induction s as [|c s IH]; [done|].
  cbn [replace]. destruct (N.eqb_spec c ch_pipe) as [->|Hc].
  - cbn [app]. rewrite unescape_pipes_cons.
    change ((ch_backslash =? ch_backslash) && (ch_pipe =? ch_pipe)) with true.
    cbv iota. by rewrite IH.
  - cbn [app].
    destruct (replace ch_pipe [ch_backslash; ch_pipe] s ++ [32]) as [|c' r] eqn:Hr.
    { by destruct (replace ch_pipe [ch_backslash; ch_pipe] s). }
    rewrite unescape_pipes_cons.
    destruct (N.eqb_spec c' ch_pipe) as [->|Hc'].
    + by apply replace_head_not_pipe in Hr.
    + rewrite andb_false_r. by rewrite IH.
Qed.

Lemma unescape_padded_escaped (s : pystr) :
  unescape_pipes (padded (replace ch_pipe [ch_backslash; ch_pipe] s)) = padded s.
Proof.
  unfold padded. change (lit " ") with [32]. cbn [app].
  destruct (replace ch_pipe [ch_backslash; ch_pipe] s ++ [32]) as [|c t] eqn:Hr.
  { by destruct (replace ch_pipe [ch_backslash; ch_pipe] s). }
  rewrite unescape_pipes_cons. change (32 =? ch_backslash) with false. cbn [andb].
  by rewrite <- Hr, unescape_replace_space.
Qed.

Lemma unescape_padded_plain (s : pystr) :
  ch_pipe ∉ s → unescape_pipes (padded s) = padded s.
Proof.
  intros Hs. apply unescape_no_pipe. unfold padded. change (lit " ") with [32].
  rewrite !elem_of_app, !list_elem_of_singleton. intros [?|[?|?]]; done.
Qed.

Lemma fk_cell_of_no_pipe (t : pystr) : ch_pipe ∉ t → ch_pipe ∉ fk_cell_of t.
Proof.
  intros Ht. unfold fk_cell_of. destruct (truthy t); [|apply not_elem_of_nil].
  rewrite !elem_of_app. intros [H|[H|H]]; [|done|].
  - revert H. change (lit "FK → `") with [70; 75; 32; 8594; 32; 96].
    rewrite !elem_of_cons, elem_of_nil. intros [?|[?|[?|[?|[?|[?|[]]]]]]]; done.
  - by apply list_elem_of_singleton in H.
Qed.

Lemma pair_no_pipe (p s : Z) : ch_pipe ∉ str_int p ++ lit "," ++ str_int s.
Proof.
  rewrite !elem_of_app.
  intros [H|[H|H]]; [by apply str_int_no_pipe in H | | by apply str_int_no_pipe in H].
  by apply list_elem_of_singleton in H.
Qed.

Lemma oracle_lens_no_pipe (c : OraCol.t) : ch_pipe ∉ oracle_lens c.
Proof.
  unfold oracle_lens.
  destruct (OraCol.data_precision c), (OraCol.data_scale c), (OraCol.data_length c);
    auto using pair_no_pipe, str_int_no_pipe, not_elem_of_nil.
Qed.

Lemma mssql_lens_no_pipe (c : MsCol.t) : ch_pipe ∉ mssql_lens c.
Proof.
  unfold mssql_lens.
  destruct (truthy_num _), (MsCol.precision c) as [p|], (MsCol.scale c), (MsCol.max_length c);
    try destruct (negb _); auto using pair_no_pipe, str_int_no_pipe, not_elem_of_nil.
Qed.

Lemma flag_no_pipe (b : bool) (s : pystr) :
  ch_pipe ∉ s → ch_pipe ∉ (if b then lit "Y" else s).
Proof. destruct b; [|done]. by intros _ ?%list_elem_of_singleton. Qed.

(** X10.  When the column name, the data type and the foreign-key
    target hold no [|], a data row read back by the table rule (cut at
    the pipes that are not escaped, escapes removed) gives an empty
    piece, the eight cell values each between two spaces, and an empty
    piece: name, type, length, nullable flag, trimmed default, PK flag,
    FK cell and comment, the last two of them as they were before
    escaping. *)
Theorem row_reads_back (oc : OraCol.t) (mc : MsCol.t)
    (pk_cols : gset pystr) (fk_map : gmap pystr pystr) :
  ch_pipe ∉ OraCol.column_name oc → ch_pipe ∉ OraCol.data_type oc →
  ch_pipe ∉ get_default fk_map (OraCol.column_name oc) [] →
  ch_pipe ∉ MsCol.column_name mc → ch_pipe ∉ MsCol.data_type mc →
  ch_pipe ∉ get_default fk_map (MsCol.column_name mc) [] →
  map unescape_pipes (split_cells (oracle_row oc pk_cols fk_map)) =
    [] :: map padded
            [OraCol.column_name oc; OraCol.data_type oc; oracle_lens oc; oracle_nullable oc;
             strip (default [] (OraCol.data_default oc)); oracle_is_pk oc pk_cols;
             oracle_fk_cell oc fk_map; default [] (OraCol.column_comment oc)] ++ [[]]
  ∧ map unescape_pipes (split_cells (mssql_row mc pk_cols fk_map)) =
    [] :: map padded
            [MsCol.column_name mc; MsCol.data_type mc; mssql_lens mc; mssql_nullable mc;
             strip (default [] (MsCol.data_default mc)); mssql_is_pk mc pk_cols;
             mssql_fk_cell mc fk_map; default [] (MsCol.column_comment mc)] ++ [[]].
Proof.
  intros Hon Hot Hof Hmn Hmt Hmf.
  assert (Honull : ch_pipe ∉ oracle_nullable oc).
  { unfold oracle_nullable. apply flag_no_pipe. by intros ?%list_elem_of_singleton. }
  assert (Hopk : ch_pipe ∉ oracle_is_pk oc pk_cols).
  { unfold oracle_is_pk. apply flag_no_pipe, not_elem_of_nil. }
  assert (Hofk : ch_pipe ∉ oracle_fk_cell oc fk_map) by by apply fk_cell_of_no_pipe.
  assert (Hmnull : ch_pipe ∉ mssql_nullable mc).
  { unfold mssql_nullable. apply flag_no_pipe. by intros ?%list_elem_of_singleton. }
  assert (Hmpk : ch_pipe ∉ mssql_is_pk mc pk_cols).
  { unfold mssql_is_pk. apply flag_no_pipe, not_elem_of_nil. }
  assert (Hmfk : ch_pipe ∉ mssql_fk_cell mc fk_map) by by apply fk_cell_of_no_pipe.
  pose proof (oracle_lens_no_pipe oc) as Holens.
  pose proof (mssql_lens_no_pipe mc) as Hmlens.
  unfold oracle_row, mssql_row.
  rewrite !split_cells_format_row
    by (repeat apply Forall_cons_2; try apply Forall_nil_2;
        first [apply column_pipes_md_escape | by apply column_pipes_from_none]).
  cbn [map app].
  unfold oracle_default, oracle_comment, mssql_default, mssql_comment, md_escape.
  rewrite !or_empty_some, !unescape_padded_escaped, !or_empty_default.
  rewrite !unescape_padded_plain by done. done.
Qed.

Lemma row_reads_back_witness :
  map unescape_pipes (split_cells (oracle_row ora_number_10_0 ∅ ∅)) =
    [[]; lit " QTY "; lit " NUMBER "; lit " 10,0 "; lit " N "; lit "  "; lit "  "; lit "  ";
     lit "  "; []]
  ∧ map unescape_pipes (split_cells (mssql_row ms_varchar_255 ∅ ∅)) =
    [[]; lit " NAME "; lit " varchar "; lit " 255 "; lit " Y "; lit "  "; lit "  "; lit "  ";
     lit "  "; []].
Proof.
  refine (row_reads_back ora_number_10_0 ms_varchar_255 ∅ ∅ _ _ _ _ _ _);
    apply (bool_decide_unpack _); vm_compute; exact I.
Defined.

(** ** The main flow: one file per table *)






(** ** File names *)




(** ** The main flow: failures *)

(** X14.  A failure while reading the configuration file or while
    connecting is not caught: the run ends with that exception, having
    printed nothing, created no directory and written no file. *)
Theorem main_failure_leaves_no_trace (rt : Runtime) (h : Host) (e : exn) :
  ((2 ≤ length (argv h))%nat →
   files h (with_name (script_file h) (lit "tablemd.properties")) = Some (Raise e) →
   main rt h world0 = (Raise e, world0))
  ∧ (∀ text conf,
       (2 ≤ length (argv h))%nat →
       files h (with_name (script_file h) (lit "tablemd.properties")) = Some (Ok text) →
       load_properties (Ok text) = Ok conf →
       py_lower rt (get_default conf (lit "DB_TYPE") []) = lit "oracle" →
       oracle_connect rt (cx_Oracle h) conf = Raise e →
       main rt h world0 = (Raise e, world0))
  ∧ (∀ text conf,
       (2 ≤ length (argv h))%nat →
       files h (with_name (script_file h) (lit "tablemd.properties")) = Some (Ok text) →
       load_properties (Ok text) = Ok conf →
       py_lower rt (get_default conf (lit "DB_TYPE") []) = lit "sqlserver" →
       mssql_connect rt (pyodbc h) conf = Raise e →
       main rt h world0 = (Raise e, world0)).
Proof.
  split; [|split].
  - intros Hargs Hfile. unfold main.
    destruct (Nat.ltb_spec (length (argv h)) 2) as [?|_]; [lia|].
    rewrite Hfile. reflexivity.
  - intros text conf Hargs Hfile Hconf Hora Hconn.
    rewrite (main_configured rt h text conf) by done. cbv zeta.
    rewrite bool_decide_eq_true_2 by done.
    unfold main_oracle. cbv zeta. unfold mbind at 1, M_bind, lift. by rewrite Hconn.
  - intros text conf Hargs Hfile Hconf Hms Hconn.
    rewrite (main_configured rt h text conf) by done. cbv zeta.
    rewrite bool_decide_eq_false_2 by (rewrite Hms; by vm_compute).
    rewrite bool_decide_eq_true_2 by done.
    unfold main_mssql. cbv zeta. unfold mbind at 1, M_bind, lift. by rewrite Hconn.
Qed.

Lemma main_failure_leaves_no_trace_witness :
  main ascii_runtime
       (host_of [lit "tablemd.py"; lit "ABC%"] (Some (Raise OSError)) None None) world0
    = (Raise OSError, world0)
  ∧ main ascii_runtime
         (host_of [lit "tablemd.py"; lit "ABC%"] (Some (Ok config_oracle))
            (Some {| cx_connect := λ _ _ _, Raise OSError |}) None) world0
    = (Raise OSError, world0)
  ∧ main ascii_runtime
         (host_of [lit "tablemd.py"; lit "ABC%"] (Some (Ok config_sqlserver))
            None (Some {| odbc_connect := λ _, Raise OSError |})) world0
    = (Raise OSError, world0).
Proof.
  split; [|split].
  - refine (proj1 (main_failure_leaves_no_trace ascii_runtime
                     (host_of [lit "tablemd.py"; lit "ABC%"] (Some (Raise OSError)) None None)
                     OSError) _ _).
    + vm_compute. lia.
    + vm_compute. reflexivity.
  - refine (proj1 (proj2 (main_failure_leaves_no_trace ascii_runtime
                     (host_of [lit "tablemd.py"; lit "ABC%"] (Some (Ok config_oracle))
                        (Some {| cx_connect := λ _ _ _, Raise OSError |}) None)
                     OSError)) config_oracle (loaded config_oracle) _ _ _ _ _).
    + vm_compute. lia.
    + vm_compute. reflexivity.
    + vm_compute. reflexivity.
    + vm_compute. reflexivity.
    + vm_compute. reflexivity.
  - refine (proj2 (proj2 (main_failure_leaves_no_trace ascii_runtime
                     (host_of [lit "tablemd.py"; lit "ABC%"] (Some (Ok config_sqlserver))
                        None (Some {| odbc_connect := λ _, Raise OSError |}))
                     OSError)) config_sqlserver (loaded config_sqlserver) _ _ _ _ _).
    + vm_compute. lia.
    + vm_compute. reflexivity.
    + vm_compute. reflexivity.
    + vm_compute. reflexivity.
    + vm_compute. reflexivity.
Defined.

(** X15.  With a configuration that loads, each of these ends the run
    with status 1 and nothing printed or written: the Oracle backend
    without its client library, whatever else the configuration says;
    the Oracle backend with a port that is no number, before the driver
    is asked to connect; the Oracle backend with neither [ORA_SCHEMA]
    nor [ORA_USER], once connected; the SQL Server backend without its
    client library. *)
Theorem main_setup_errors (rt : Runtime) (h : Host) (text : pystr) (conf : gmap pystr pystr) :
  (2 ≤ length (argv h))%nat →
  files h (with_name (script_file h) (lit "tablemd.properties")) = Some (Ok text) →
  load_properties (Ok text) = Ok conf →
  (py_lower rt (get_default conf (lit "DB_TYPE") []) = lit "oracle" →
   cx_Oracle h = None → run rt h = (1%Z, world0))
  ∧ (py_lower rt (get_default conf (lit "DB_TYPE") []) = lit "oracle" →
     is_Some (cx_Oracle h) →
     py_int rt (get_default conf (lit "ORA_PORT") (lit "1521")) = None →
     run rt h = (1%Z, world0))
  ∧ (∀ conn,
       py_lower rt (get_default conf (lit "DB_TYPE") []) = lit "oracle" →
       oracle_connect rt (cx_Oracle h) conf = Ok conn →
       conf !! lit "ORA_SCHEMA" = None → conf !! lit "ORA_USER" = None →
       run rt h = (1%Z, world0))
  ∧ (py_lower rt (get_default conf (lit "DB_TYPE") []) = lit "sqlserver" →
     pyodbc h = None → run rt h = (1%Z, world0)).
Proof.
  intros Hargs Hfile Hconf. unfold run.
  rewrite (main_configured rt h text conf) by done. cbv zeta.
  split; [|split; [|split]].
  - intros Hora Hdrv. rewrite bool_decide_eq_true_2 by done.
    unfold main_oracle. cbv zeta. unfold mbind at 1, M_bind, lift, oracle_connect.
    by rewrite Hdrv.
  - intros Hora [drv Hdrv] Hport. rewrite bool_decide_eq_true_2 by done.
    unfold main_oracle. cbv zeta. unfold mbind at 1, M_bind, lift, oracle_connect.
    by rewrite Hdrv, Hport.
  - intros conn Hora Hconn Hschema Huser. rewrite bool_decide_eq_true_2 by done.
    unfold main_oracle, get. cbv zeta. rewrite Hschema, Huser.
    unfold mbind at 1, M_bind, lift. rewrite Hconn. reflexivity.
  - intros Hms Hdrv.
    rewrite bool_decide_eq_false_2 by (rewrite Hms; by vm_compute).
    rewrite bool_decide_eq_true_2 by done.
    unfold main_mssql. cbv zeta. unfold mbind at 1, M_bind, lift, mssql_connect.
    by rewrite Hdrv.
Qed.

Lemma main_setup_errors_witness :
  run ascii_runtime
      (host_of [lit "tablemd.py"; lit "ABC%"] (Some (Ok config_oracle)) None None)
    = (1%Z, world0)
  ∧ run ascii_runtime
        (host_of [lit "tablemd.py"; lit "ABC%"] (Some (Ok config_oracle_bad_port))
           (Some empty_oracle_driver) None)
    = (1%Z, world0)
  ∧ run ascii_runtime
        (host_of [lit "tablemd.py"; lit "ABC%"] (Some (Ok config_oracle_no_user))
           (Some empty_oracle_driver) None)
    = (1%Z, world0)
  ∧ run ascii_runtime
        (host_of [lit "tablemd.py"; lit "ABC%"] (Some (Ok config_sqlserver)) None None)
    = (1%Z, world0).
Proof.
  split; [|split; [|split]].
  - refine (proj1 (main_setup_errors ascii_runtime
                     (host_of [lit "tablemd.py"; lit "ABC%"] (Some (Ok config_oracle)) None None)
                     config_oracle (loaded config_oracle) _ _ _) _ _).
    + vm_compute. lia.
    + vm_compute. reflexivity.
    + vm_compute. reflexivity.
    + vm_compute. reflexivity.
    + reflexivity.
  - refine (proj1 (proj2 (main_setup_errors ascii_runtime
                     (host_of [lit "tablemd.py"; lit "ABC%"] (Some (Ok config_oracle_bad_port))
                        (Some empty_oracle_driver) None)
                     config_oracle_bad_port (loaded config_oracle_bad_port) _ _ _)) _ _ _).
    + vm_compute. lia.
    + vm_compute. reflexivity.
    + vm_compute. reflexivity.
    + vm_compute. reflexivity.
    + by eexists.
    + vm_compute. reflexivity.
  - refine (proj1 (proj2 (proj2 (main_setup_errors ascii_runtime
                     (host_of [lit "tablemd.py"; lit "ABC%"] (Some (Ok config_oracle_no_user))
                        (Some empty_oracle_driver) None)
                     config_oracle_no_user (loaded config_oracle_no_user) _ _ _)))
              empty_oracle _ _ _ _).
    + vm_compute. lia.
    + vm_compute. reflexivity.
    + vm_compute. reflexivity.
    + vm_compute. reflexivity.
    + vm_compute. reflexivity.
    + vm_compute. reflexivity.
    + vm_compute. reflexivity.
  - refine (proj2 (proj2 (proj2 (main_setup_errors ascii_runtime
                     (host_of [lit "tablemd.py"; lit "ABC%"] (Some (Ok config_sqlserver)) None None)
                     config_sqlserver (loaded config_sqlserver) _ _ _))) _ _).
    + vm_compute. lia.
    + vm_compute. reflexivity.
    + vm_compute. reflexivity.
    + vm_compute. reflexivity.
    + reflexivity.
Defined.

(** ** Columns of the table *)

Lemma split_cells_from_length (b : bool) (cur s : pystr) :
  length (split_cells_from b cur s) = S (column_pipes_from b s).
Proof.
  revert b cur. induction s as [|c s IH]; intros b cur; [done|].
  cbn [split_cells_from column_pipes_from]. cbv zeta.
  destruct (N.eqb_spec c ch_pipe) as [->|Hc]; [destruct b|]; cbn [andb negb length];
    by rewrite IH.
Qed.

Lemma header_row_pipes : column_pipes header_row = 9%nat.
Proof. vm_compute. reflexivity. Qed.

Lemma separator_row_pipes : column_pipes separator_row = 9%nat.
Proof. vm_compute. reflexivity. Qed.

(** X16.  Cutting any text at its column pipes gives one piece more
    than it has column pipes.  Header row and separator row have nine
    each, and a data row has as many as the header exactly when column
    name, data type and foreign-key target hold no pipe outside the
    escaped form. *)
Theorem row_columns_match_header (oc : OraCol.t) (mc : MsCol.t)
    (pk_cols : gset pystr) (fk_map : gmap pystr pystr) (s : pystr) :
  length (split_cells s) = S (column_pipes s)
  ∧ column_pipes header_row = 9%nat ∧ column_pipes separator_row = 9%nat
  ∧ (column_pipes (oracle_row oc pk_cols fk_map) = column_pipes header_row ↔
       column_pipes (OraCol.column_name oc) = 0%nat
       ∧ column_pipes (OraCol.data_type oc) = 0%nat
       ∧ column_pipes (get_default fk_map (OraCol.column_name oc) []) = 0%nat)
  ∧ (column_pipes (mssql_row mc pk_cols fk_map) = column_pipes header_row ↔
       column_pipes (MsCol.column_name mc) = 0%nat
       ∧ column_pipes (MsCol.data_type mc) = 0%nat
       ∧ column_pipes (get_default fk_map (MsCol.column_name mc) []) = 0%nat).
Proof.
  split; [apply split_cells_from_length|].
  split; [apply header_row_pipes|]. split; [apply separator_row_pipes|].
  rewrite column_pipes_oracle_row, column_pipes_mssql_row, header_row_pipes.
  unfold oracle_fk_to, mssql_fk_to.
  generalize (column_pipes (OraCol.column_name oc)) (column_pipes (OraCol.data_type oc))
    (column_pipes (get_default fk_map (OraCol.column_name oc) []))
    (column_pipes (MsCol.column_name mc)) (column_pipes (MsCol.data_type mc))
    (column_pipes (get_default fk_map (MsCol.column_name mc) [])).
  intros a b c d e f. split; lia.
Qed.
